(** * AAG CloudWatcher sky-temperature correction: a shallow embedding

    This development embeds [src/aag/sky_temperature.py] (the drift
    correction [_td] / [tsky] and the threshold classifier
    [classify_cloud_state]) together with the default coefficient record
    [Skytemp] of [src/aag/settings.py], and checks the statements of the
    design document against that embedding.

    Python's [float] is an IEEE 754 binary64 number; it is modelled by
    Rocq's primitive [float], whose operations are the binary64 ones with
    round-to-nearest-even.  The elementary functions that CPython takes
    from the platform C library ([exp], [log10], [pow]) are parameters of
    the model, wrapped exactly as CPython wraps them (error detection of
    [math.exp] / [math.log10], the special cases of [float ** float]). *)

From Stdlib Require Import ZArith Bool Floats Lia.

Local Open Scope float_scope.

(* ===================================================================== *)
(** * Python runtime: exceptions, objects, float helpers *)
(* ===================================================================== *)

Module Py.

(** The exceptions that float arithmetic and the [math] module raise. *)
Inductive exn : Set :=
| OverflowError
| ZeroDivisionError
| ValueError.

Definition exn_eqb (a b : exn) : bool :=
  match a, b with
  | OverflowError, OverflowError
  | ZeroDivisionError, ZeroDivisionError
  | ValueError, ValueError => true
  | _, _ => false
  end.

(** The outcome of evaluating an expression: a value, or an exception
    travelling up the stack. *)
Inductive result (A : Type) : Type :=
| Ok (a : A)
| Raise (e : exn).
Arguments Ok {A} a.
Arguments Raise {A} e.

Definition bind {A B : Type} (r : result A) (k : A -> result B) : result B :=
  match r with
  | Ok a => k a
  | Raise e => Raise e
  end.

(** [try: body / except E: handler]. *)
Definition try_except {A : Type} (body : result A) (E : exn) (handler : result A)
  : result A :=
  match body with
  | Ok a => Ok a
  | Raise e => if exn_eqb e E then handler else Raise e
  end.

(** What a numeric expression of the module can evaluate to.  Every
    operand of the module is a [float]; the only other object that can
    appear is the [complex] that [float ** float] produces for a negative
    base and a fractional exponent.  Its components are never inspected,
    so they are not tracked. *)
Inductive pyobject : Set :=
| PyFloat (x : float)
| PyComplex.

(** [float * obj], [float + obj], [obj + float], [float - obj]: float
    arithmetic when both are floats, complex arithmetic (which does not
    raise) as soon as one operand is complex. *)
Definition float_mul_obj (a : float) (b : pyobject) : pyobject :=
  match b with PyFloat y => PyFloat (a * y) | PyComplex => PyComplex end.
Definition float_add_obj (a : float) (b : pyobject) : pyobject :=
  match b with PyFloat y => PyFloat (a + y) | PyComplex => PyComplex end.
Definition obj_add_float (a : pyobject) (b : float) : pyobject :=
  match a with PyFloat x => PyFloat (x + b) | PyComplex => PyComplex end.
Definition float_sub_obj (a : float) (b : pyobject) : pyobject :=
  match b with PyFloat y => PyFloat (a - y) | PyComplex => PyComplex end.

(** [bool(x)] for a float: [x != 0.0]; both zeros are falsy, NaN is truthy. *)
Definition truthy (x : float) : bool := negb (x =? 0).

(** [x > y]. *)
Definition gtb (x y : float) : bool := y <? x.

(** The sign bit.  A primitive [float] has one NaN, without a sign: the
    sign bit of a NaN is read as clear, as it is for [float('nan')]. *)
Definition signbit (x : float) : bool :=
  match classify x with
  | NNormal | NSubn | NZero | NInf => true
  | _ => false
  end.

(** [math.copysign(x, y)]. *)
Definition copysign (x y : float) : float :=
  if signbit y then - abs x else abs x.

(** [iw == floor(iw)] and [DOUBLE_IS_ODD_INTEGER(iw)] of floatobject.c,
    read off the binary expansion [m * 2^e]. *)
Definition SF_is_integer (x : spec_float) : bool :=
  match x with
  | S754_zero _ | S754_infinity _ => true
  | S754_finite _ m e =>
      if (0 <=? e)%Z then true else (Zpos m mod 2 ^ (- e) =? 0)%Z
  | S754_nan => false
  end.

Definition SF_is_odd_integer (x : spec_float) : bool :=
  match x with
  | S754_finite _ m e =>
      if (0 <? e)%Z then false
      else (Zpos m mod 2 ^ (- e) =? 0)%Z && Z.odd (Zpos m / 2 ^ (- e))
  | _ => false
  end.

Definition is_integer (x : float) : bool := SF_is_integer (Prim2SF x).
Definition DOUBLE_IS_ODD_INTEGER (x : float) : bool :=
  SF_is_odd_integer (Prim2SF x).

(** The C functions CPython delegates to.  [libm_pow] is only called on a
    finite positive base other than 1 and a finite non-zero exponent;
    [complex_pow_error] tells whether the complex power of a negative base
    reports an error instead of returning a complex number. *)
Record Libm : Type := {
  libm_exp : float -> float;
  libm_log10 : float -> float;
  libm_pow : float -> float -> float;
  complex_pow_error : float -> float -> option exn
}.

Section Math.
Variable L : Libm.

(** [math_1] of mathmodule.c: call the C function, then turn a NaN
    result of a non-NaN argument into [ValueError] and an infinite
    result of a finite argument into [OverflowError] (when the function
    can overflow) or [ValueError] (when it has a singularity).  A finite
    result is returned as it is: [errno] is only consulted for finite
    results, where an underflow is ignored. *)
Definition math_1 (func : float -> float) (can_overflow : bool) (x : float)
  : result float :=
  let r := func x in
  if is_nan r && negb (is_nan x) then Raise ValueError
  else if is_infinity r && is_finite x then
    Raise (if can_overflow then OverflowError else ValueError)
  else Ok r.

(** [math.exp]. *)
Definition math_exp : float -> result float := math_1 (libm_exp L) true.

(** [m_log10] of mathmodule.c: the special values are fixed before the
    C library is asked. *)
Definition m_log10 (x : float) : float :=
  if is_finite x then
    if 0 <? x then libm_log10 L x
    else if x =? 0 then neg_infinity
    else nan
  else if is_nan x then x
  else if 0 <? x then x
  else nan.

(** [math.log10] on a float. *)
Definition math_log10 : float -> result float := math_1 m_log10 false.

(** [float_pow] of floatobject.c, the [**] of two floats: the special
    cases are sorted out first, in this order; the C [pow] is called last
    and an infinite result of it is an [OverflowError]. *)
Definition float_pow (iv iw : float) : result pyobject :=
  if iw =? 0 then Ok (PyFloat 1)
  else if is_nan iv then Ok (PyFloat iv)
  else if is_nan iw then Ok (PyFloat (if iv =? 1 then 1 else iw))
  else if is_infinity iw then
    let iv := abs iv in
    if iv =? 1 then Ok (PyFloat 1)
    else if Bool.eqb (0 <? iw) (1 <? iv) then Ok (PyFloat (abs iw))
    else Ok (PyFloat 0)
  else if is_infinity iv then
    let iw_is_odd := DOUBLE_IS_ODD_INTEGER iw in
    if 0 <? iw then Ok (PyFloat (if iw_is_odd then iv else abs iv))
    else Ok (PyFloat (if iw_is_odd then copysign 0 iv else 0))
  else if iv =? 0 then
    let iw_is_odd := DOUBLE_IS_ODD_INTEGER iw in
    if iw <? 0 then Raise ZeroDivisionError
    else Ok (PyFloat (if iw_is_odd then iv else 0))
  else if (iv <? 0) && negb (is_integer iw) then
    match complex_pow_error L iv iw with
    | Some e => Raise e
    | None => Ok PyComplex
    end
  else
    let negate_result := (iv <? 0) && DOUBLE_IS_ODD_INTEGER iw in
    let iv := if iv <? 0 then - iv else iv in
    if iv =? 1 then Ok (PyFloat (if negate_result then -1 else 1))
    else
      let ix := libm_pow L iv iw in
      if is_infinity ix then Raise OverflowError
      else Ok (PyFloat (if negate_result then - ix else ix)).

End Math.

End Py.

Import Py.

Declare Scope py_scope.
Delimit Scope py_scope with py.
Notation "x <- e ;; k" := (bind e (fun x => k))
  (at level 61, e at next level, right associativity) : py_scope.
Local Open Scope py_scope.

(* ===================================================================== *)
(** * settings.py : the coefficient record *)
(* ===================================================================== *)

(** [_HasCoeffs]: anything that exposes K1 .. K7 float attributes. *)
Record _HasCoeffs : Set := {
  K1 : float; K2 : float; K3 : float;
  K4 : float; K5 : float; K6 : float; K7 : float
}.

(** [Skytemp()] of settings.py, the default coefficients. *)
Definition Skytemp : _HasCoeffs :=
  {| K1 := 33; K2 := 0; K3 := 0; K4 := 0; K5 := 0; K6 := 140; K7 := 40 |}.

(* ===================================================================== *)
(** * sky_temperature.py *)
(* ===================================================================== *)

Section CoreMaths.
Variable L : Libm.

(** The locals of [_td], in the order the function computes them. *)
Definition term1 (ta : float) (c : _HasCoeffs) : float :=
  (K1 c / 100) * (ta - K2 c / 10).

(** The right-hand side inside the [try]. *)
Definition term2_expr (ta : float) (c : _HasCoeffs) : result pyobject :=
  e <- math_exp L (K4 c / 1000 * ta) ;;
  p <- float_pow L e (K5 c / 100) ;;
  Ok (float_mul_obj (K3 c / 100) p).

Definition term2 (ta : float) (c : _HasCoeffs) : result pyobject :=
  if truthy (K3 c) then
    try_except (term2_expr ta c) OverflowError (Ok (PyFloat 0))
  else Ok (PyFloat 0).

Definition delta (ta : float) (c : _HasCoeffs) : float :=
  abs (K2 c / 10 - ta).

Definition t67 (ta : float) (c : _HasCoeffs) : result float :=
  if delta ta c <? 1 then
    Ok (copysign (delta ta c) (K6 c))
  else
    l <- math_log10 L (delta ta c) ;;
    Ok ((K6 c / 10) * copysign 1 (ta - K2 c / 10) * (l + K7 c / 100)).

(** Drift-compensation term T_d(T_a). *)
Definition _td (ta : float) (c : _HasCoeffs) : result pyobject :=
  t2 <- term2 ta c ;;
  t <- t67 ta c ;;
  Ok (obj_add_float (float_add_obj (term1 ta c) t2) t).

(** Corrected sky temperature T_sky. *)
Definition tsky (ts ta : float) (coeffs : _HasCoeffs) : result pyobject :=
  td <- _td ta coeffs ;;
  Ok (float_sub_obj ts td).

End CoreMaths.

(** [class CloudState(IntEnum)]. *)
Inductive CloudState : Set :=
| CLEAR
| CLOUDY
| VERY_CLOUDY.

Definition CloudState_value (s : CloudState) : Z :=
  match s with
  | CLEAR => 0
  | CLOUDY => 1
  | VERY_CLOUDY => 2
  end.

Definition classify_cloud_state (tsky_val clear_limit cloudy_limit : float)
  : CloudState :=
  if tsky_val <? clear_limit then CLEAR
  else if gtb tsky_val cloudy_limit then VERY_CLOUDY
  else CLOUDY.

(** The keyword defaults [clear_limit=-17.0], [cloudy_limit=-8.0]. *)
Definition default_clear_limit : float := -17.
Definition default_cloudy_limit : float := -8.

Definition classify_cloud_state_default (tsky_val : float) : CloudState :=
  classify_cloud_state tsky_val default_clear_limit default_cloudy_limit.

(* ===================================================================== *)
(** * A sample C library *)
(* ===================================================================== *)

(** The statements below hold for every [Libm].  To run the model on
    concrete readings one instance is needed; this one evaluates the
    exponential by range reduction and repeated squaring and the logarithm
    by the series of the inverse hyperbolic tangent.  It is coarse, but it
    shares with every C library what the examples rely on: [exp] underflows
    to [0] and overflows to [infinity], and [log10 10 = 1]. *)
Module SampleLibm.

Definition exp_poly (y : float) : float :=
  1 + y * (1 + y / 2 * (1 + y / 3 * (1 + y / 4 * (1 + y / 5 *
    (1 + y / 6 * (1 + y / 7 * (1 + y / 8))))))).

Fixpoint square_n (n : nat) (x : float) : float :=
  match n with
  | O => x
  | S k => square_n k (x * x)
  end.

Definition exp (x : float) : float :=
  if is_nan x then x
  else if x <? -746 then 0
  else if 710 <? x then infinity
  else square_n 10 (exp_poly (x / 1024)).

Definition float_of_Z (z : Z) : float :=
  match z with
  | Z0 => 0
  | Zpos _ => of_uint63 (Uint63.of_Z z)
  | Zneg p => - of_uint63 (Uint63.of_Z (Zpos p))
  end.

Definition atanh_poly (z : float) : float :=
  let w := z * z in
  z * (1 + w * (1 / 3 + w * (1 / 5 + w * (1 / 7 + w * (1 / 9 +
    w * (1 / 11 + w * (1 / 13 + w * (1 / 15)))))))).

Definition ln2 : float := 0x1.62e42fefa39efp-1.

Definition ln (x : float) : float :=
  let (m, e) := Z.frexp x in
  let m := 2 * m in
  float_of_Z (e - 1) * ln2 + 2 * atanh_poly ((m - 1) / (m + 1)).

Definition log10 (x : float) : float := ln x / ln 10.

Definition pow (x y : float) : float := exp (y * ln x).

Definition libm : Libm :=
  {| libm_exp := exp;
     libm_log10 := log10;
     libm_pow := pow;
     complex_pow_error := fun _ _ => None |}.

End SampleLibm.

(** Readings and coefficient sets used in the examples. *)

(** A calibration with the exponential term switched on and a negative
    exponent [K5]. *)
Definition coeffs_negative_K5 : _HasCoeffs :=
  {| K1 := 33; K2 := 0; K3 := 1; K4 := 100000; K5 := -100;
     K6 := 140; K7 := 40 |}.

(** A calibration whose exponential term overflows at [ta = 10]. *)
Definition coeffs_overflowing : _HasCoeffs :=
  {| K1 := 33; K2 := 0; K3 := 1; K4 := 100000; K5 := 100;
     K6 := 140; K7 := 40 |}.

(** The default calibration with [K3] the negative zero and other values
    for [K4] and [K5]. *)
Definition coeffs_K3_neg_zero : _HasCoeffs :=
  {| K1 := 33; K2 := 0; K3 := -0; K4 := 2500; K5 := -700;
     K6 := 140; K7 := 40 |}.

(** The default calibration with [K6] set to the negative zero. *)
Definition coeffs_K6_neg_zero : _HasCoeffs :=
  {| K1 := 33; K2 := 0; K3 := 0; K4 := 0; K5 := 0; K6 := -0; K7 := 40 |}.

(** [correct(ts, ta, c) + d]: the caller adds an offset to what [tsky]
    returned. *)
Definition plus_offset (r : result pyobject) (d : float) : result pyobject :=
  v <- r ;; Ok (obj_add_float v d).

(** The design document's reading of the near-field term: magnitude
    [delta] with the sign of [K6], the sign of zero treated as positive. *)
Definition signed_like_zero_positive (delta k6 : float) : float :=
  if k6 <? 0 then - delta else delta.

(** An infinity or a finite non-zero number. *)
Definition SF_nonzero_number (x : spec_float) : Prop :=
  match x with
  | S754_infinity _ | S754_finite _ _ _ => True
  | _ => False
  end.

(** The design document's [sign]: -1, 0 or +1. *)
Definition spec_sign (x : float) : float :=
  if x <? 0 then -1 else if 0 <? x then 1 else 0.

(** The design document's third component, given the value [l] of the
    logarithm [log10(delta)]. *)
Definition spec_t67 (l ta : float) (c : _HasCoeffs) : float :=
  if delta ta c <? 1 then copysign (delta ta c) (K6 c)
  else (K6 c / 10) * spec_sign (ta - K2 c / 10) * (l + K7 c / 100).

(** What every C library guarantees and the totality analysis needs: the
    exponential is never negative and is a NaN only for a NaN; the
    logarithm of a finite positive number is finite. *)
Definition exp_sane (L : Libm) : Prop :=
  forall x : float,
    (libm_exp L x <? 0) = false /\
    (is_nan (libm_exp L x) = true -> is_nan x = true).

Definition log10_sane (L : Libm) : Prop :=
  forall x : float,
    is_finite x = true -> (0 <? x) = true ->
    is_finite (libm_log10 L x) = true.

(** The binary64 number nearest to -52.9. *)
Definition minus_52_9 : float := -0x1.a733333333333p+5.

(* ===================================================================== *)
(** * A guarded C library *)
(* ===================================================================== *)

(** The sample library with its results checked against what the C
    standard promises: an exponential that would be a NaN for a number is
    replaced by [0], a logarithm that is not finite by [0].  It agrees with
    the sample library wherever that one behaves, and it meets [exp_sane]
    and [log10_sane] on every argument. *)
Module GuardedLibm.

Definition exp (x : float) : float :=
  let r := SampleLibm.exp x in
  if is_nan r && negb (is_nan x) then 0 else r.

Definition log10 (x : float) : float :=
  let r := SampleLibm.log10 x in
  if is_finite r then r else 0.

Definition libm : Libm :=
  {| libm_exp := exp;
     libm_log10 := log10;
     libm_pow := SampleLibm.pow;
     complex_pow_error := fun _ _ => None |}.

End GuardedLibm.

(** A calibration whose power is finite at [ta = 10] ([exp(700.0)]) while
    its product with [K3/100] is not. *)
Definition coeffs_product_overflow : _HasCoeffs :=
  {| K1 := 33; K2 := 0; K3 := 0x1p+1023; K4 := 70000; K5 := 100;
     K6 := 140; K7 := 40 |}.

(** The default calibration centred at 12.5 degrees. *)
Definition coeffs_centre_12_5 : _HasCoeffs :=
  {| K1 := 33; K2 := 125; K3 := 0; K4 := 0; K5 := 0; K6 := 140; K7 := 40 |}.

(** A float that is a zero of either sign. *)
Definition is_a_zero (x : float) : Prop :=
  exists s : bool, Prim2SF x = S754_zero s.

(** The value of a finite float in units of [2^-1074], the smallest
    positive binary64 number: every finite float is an integer number of
    them.  Infinities and NaN have no value. *)
Definition SF_scaled (x : spec_float) : option Z :=
  match x with
  | S754_zero _ => Some 0%Z
  | S754_finite s m e => Some (cond_Zopp s (Zpos m * 2 ^ (e + 1074)))
  | _ => None
  end.

Definition scaled (x : float) : option Z := SF_scaled (Prim2SF x).


Definition exact_sub (a b : float) : bool :=
  match scaled a, scaled b, scaled (a - b) with
  | Some A, Some B, Some C => (C =? A - B)%Z
  | _, _, _ => false
  end.


(** A finite calibration and a finite ambient reading whose product
    [K4/1000*ta] is beyond the binary64 range. *)
Definition coeffs_argument_overflow : _HasCoeffs :=
  {| K1 := 33; K2 := 0; K3 := 1; K4 := 0x1p+1023; K5 := 100;
     K6 := 140; K7 := 40 |}.

Definition ta_two_pow_40 : float := 0x1p+40.

(* ===================================================================== *)
(** * Running the model *)
(* ===================================================================== *)

(** The wrappers on the values where Python's behaviour is fixed by
    CPython itself, whatever the C library is. *)
Section RuntimeExamples.

Variable L : Libm.

Example pow_zero_zero : float_pow L 0 0 = Ok (PyFloat 1).
Proof. reflexivity. Qed.

Example pow_nan_zero : float_pow L nan 0 = Ok (PyFloat 1).
Proof. reflexivity. Qed.

Example pow_one_nan : float_pow L 1 nan = Ok (PyFloat 1).
Proof. reflexivity. Qed.

Example pow_half_inf : float_pow L 0.5 infinity = Ok (PyFloat 0).
Proof. reflexivity. Qed.

Example pow_two_neg_inf : float_pow L 2 neg_infinity = Ok (PyFloat 0).
Proof. reflexivity. Qed.

Example pow_zero_neg_inf : float_pow L 0 neg_infinity = Ok (PyFloat infinity).
Proof. reflexivity. Qed.

Example pow_inf_neg : float_pow L infinity (-1) = Ok (PyFloat 0).
Proof. reflexivity. Qed.

Example pow_neg_inf_cubed :
  float_pow L neg_infinity 3 = Ok (PyFloat neg_infinity).
Proof. reflexivity. Qed.

Example pow_zero_squared : float_pow L 0 2 = Ok (PyFloat 0).
Proof. reflexivity. Qed.

Example pow_zero_negative : float_pow L 0 (-1) = Raise ZeroDivisionError.
Proof. reflexivity. Qed.

Example pow_minus_one_cubed : float_pow L (-1) 3 = Ok (PyFloat (-1)).
Proof. reflexivity. Qed.

Example log10_zero : math_log10 L 0 = Raise ValueError.
Proof. reflexivity. Qed.

Example log10_negative : math_log10 L (-1) = Raise ValueError.
Proof. reflexivity. Qed.

Example log10_inf : math_log10 L infinity = Ok infinity.
Proof. reflexivity. Qed.

Example copysign_neg_zero : copysign 0.5 (-0) = -0.5.
Proof. reflexivity. Qed.

Example copysign_pos_zero : copysign 0.5 0 = 0.5.
Proof. reflexivity. Qed.

Example truthy_neg_zero : truthy (-0) = false.
Proof. reflexivity. Qed.

Example truthy_nan : truthy nan = true.
Proof. reflexivity. Qed.

End RuntimeExamples.

(** With the sample library: the square root of a negative number is
    complex, [math.exp] overflows at 1000 and underflows at -1000. *)
Example pow_negative_fractional :
  float_pow SampleLibm.libm (-8) 0.5 = Ok PyComplex.
Proof. vm_compute. reflexivity. Qed.

Example exp_overflows : math_exp SampleLibm.libm 1000 = Raise OverflowError.
Proof. vm_compute. reflexivity. Qed.

Example exp_underflows : math_exp SampleLibm.libm (-1000) = Ok 0.
Proof. vm_compute. reflexivity. Qed.

(** The concrete classifications of the design document, default
    boundaries. *)
Example classify_between : classify_cloud_state_default (-12.5) = CLOUDY.
Proof. reflexivity. Qed.

Example classify_at_clear_limit : classify_cloud_state_default (-17) = CLOUDY.
Proof. reflexivity. Qed.

Example classify_at_cloudy_limit : classify_cloud_state_default (-8) = CLOUDY.
Proof. reflexivity. Qed.

Example classify_clear : classify_cloud_state_default minus_52_9 = CLEAR.
Proof. reflexivity. Qed.

Example classify_very_cloudy : classify_cloud_state_default (-5) = VERY_CLOUDY.
Proof. reflexivity. Qed.

(* ===================================================================== *)
(** * Facts about binary64 comparison, [abs] and the sign bit *)
(* ===================================================================== *)

(** The primitive operations are specified on [spec_float]; the order facts
    are proved there and carried back along [Prim2SF]. *)

Section SpecFloatOrder.

Lemma compare_cont_Eq (p q : positive) :
  Pos.compare_cont Eq p q = (p ?= q)%positive.
Proof. reflexivity. Qed.

(** [SFcompare] is a comparison against itself: unordered (NaN) or equal. *)
Lemma SFcompare_refl (x : spec_float) :
  SFcompare x x = None \/ SFcompare x x = Some Eq.
Proof.
  destruct x as [s | s | | s m e]; simpl; auto.
  - right; destruct s; reflexivity.
  - right. rewrite Z.compare_refl, compare_cont_Eq, Pos.compare_refl.
    destruct s; reflexivity.
Qed.

Lemma SFltb_irrefl (x : spec_float) : SFltb x x = false.
Proof.
  unfold SFltb. destruct (SFcompare_refl x) as [-> | ->]; reflexivity.
Qed.

(** Splitting on every integer and mantissa comparison in sight turns an
    order goal on finite floats into linear arithmetic. *)
Ltac split_compares :=
  repeat match goal with
    | H : context [Pos.compare_cont Eq ?p ?q] |- _ =>
        rewrite (compare_cont_Eq p q) in H
    | |- context [Pos.compare_cont Eq ?p ?q] =>
        rewrite (compare_cont_Eq p q)
    end;
  repeat match goal with
    | H : context [(?a ?= ?b)%Z] |- _ =>
        destruct (Z.compare_spec a b); simpl in H; try discriminate H
    | |- context [(?a ?= ?b)%Z] =>
        destruct (Z.compare_spec a b); simpl
    | H : context [(?p ?= ?q)%positive] |- _ =>
        destruct (Pos.compare_spec p q); simpl in H; try discriminate H
    | |- context [(?p ?= ?q)%positive] =>
        destruct (Pos.compare_spec p q); simpl
    end;
  try reflexivity; try discriminate; try lia.

Ltac order_by_cases x y z :=
  unfold SFltb, SFleb;
  destruct x as [[] | [] | | [] ? ?], y as [[] | [] | | [] ? ?],
           z as [[] | [] | | [] ? ?];
  simpl; intros; try reflexivity; try discriminate;
  split_compares.

Lemma SFleb_ltb_trans (x y z : spec_float) :
  SFleb x y = true -> SFltb y z = true -> SFltb x z = true.
Proof. order_by_cases x y z. Qed.

Lemma SFltb_leb_trans (x y z : spec_float) :
  SFltb x y = true -> SFleb y z = true -> SFltb x z = true.
Proof. order_by_cases x y z. Qed.

Lemma SFleb_not_gt (x y : spec_float) :
  SFleb x y = true -> SFltb y x = false.
Proof.
  unfold SFltb, SFleb;
    destruct x as [[] | [] | | [] ? ?], y as [[] | [] | | [] ? ?];
    simpl; intros; try reflexivity; try discriminate; split_compares.
Qed.

End SpecFloatOrder.

Section PrimFloatFacts.

Lemma ltb_irrefl (x : float) : (x <? x) = false.
Proof. rewrite ltb_spec. apply SFltb_irrefl. Qed.

Lemma leb_ltb_trans (x y z : float) :
  (x <=? y) = true -> (y <? z) = true -> (x <? z) = true.
Proof. rewrite leb_spec, !ltb_spec. apply SFleb_ltb_trans. Qed.

Lemma ltb_leb_trans (x y z : float) :
  (x <? y) = true -> (y <=? z) = true -> (x <? z) = true.
Proof. rewrite leb_spec, !ltb_spec. apply SFltb_leb_trans. Qed.

Lemma leb_not_gt (x y : float) : (x <=? y) = true -> (y <? x) = false.
Proof. rewrite leb_spec, ltb_spec. apply SFleb_not_gt. Qed.

(** A NaN is the one value that differs from itself. *)
Lemma is_nan_Prim2SF (x : float) : is_nan x = true -> Prim2SF x = S754_nan.
Proof.
  unfold is_nan. rewrite eqb_spec. unfold SFeqb.
  destruct (SFcompare_refl (Prim2SF x)) as [H | H]; rewrite H.
  - destruct (Prim2SF x) as [s | s | | s m e]; try reflexivity;
      simpl in H; try discriminate H; destruct s; discriminate H.
  - discriminate.
Qed.

(** Every comparison with a NaN is false. *)
Lemma nan_ltb_l (x y : float) : is_nan x = true -> (x <? y) = false.
Proof.
  intros H. rewrite ltb_spec, (is_nan_Prim2SF x H). reflexivity.
Qed.

Lemma nan_ltb_r (x y : float) : is_nan y = true -> (x <? y) = false.
Proof.
  intros H. rewrite ltb_spec, (is_nan_Prim2SF y H).
  unfold SFltb. destruct (Prim2SF x); reflexivity.
Qed.

End PrimFloatFacts.

(* ===================================================================== *)
(** * Facts about [abs], the sign bit and [copysign] *)
(* ===================================================================== *)

Section SignFacts.

Lemma Prim2SF_zero : Prim2SF 0 = S754_zero false.
Proof. reflexivity. Qed.

Lemma abs_idem (x : float) : abs (abs x) = abs x.
Proof.
  apply Prim2SF_inj. rewrite !abs_spec.
  destruct (Prim2SF x); reflexivity.
Qed.

Lemma abs_opp (x : float) : abs (- x) = abs x.
Proof.
  apply Prim2SF_inj. rewrite !abs_spec, opp_spec.
  destruct (Prim2SF x); reflexivity.
Qed.

(** Subtracting the positive zero changes nothing, not even the sign of
    a zero. *)
Lemma sub_zero_r (x : float) : x - 0 = x.
Proof.
  apply Prim2SF_inj. rewrite sub_spec, Prim2SF_zero.
  destruct (Prim2SF x) as [[] | [] | | s m e]; reflexivity.
Qed.

(** The sign bit, read on the specification. *)
Lemma signbit_spec (x : float) :
  signbit x =
  match Prim2SF x with
  | S754_zero s | S754_infinity s | S754_finite s _ _ => s
  | S754_nan => false
  end.
Proof.
  unfold signbit. rewrite classify_spec. unfold SF64classify, SFclassify.
  destruct (Prim2SF x) as [[] | [] | | [] m e]; try reflexivity;
    destruct (Z.eqb (Z.pos (digits2_pos m)) prec); reflexivity.
Qed.

Lemma signbit_of_negative (x : float) : (x <? 0) = true -> signbit x = true.
Proof.
  rewrite signbit_spec, ltb_spec, Prim2SF_zero. unfold SFltb.
  destruct (Prim2SF x) as [[] | [] | | [] m e]; simpl;
    try discriminate; reflexivity.
Qed.

Lemma signbit_of_positive (x : float) : (0 <? x) = true -> signbit x = false.
Proof.
  rewrite signbit_spec, ltb_spec, Prim2SF_zero. unfold SFltb.
  destruct (Prim2SF x) as [[] | [] | | [] m e]; simpl;
    try discriminate; reflexivity.
Qed.

Lemma signbit_pos_zero : signbit 0 = false.
Proof. reflexivity. Qed.

Lemma signbit_neg_zero : signbit (-0) = true.
Proof. reflexivity. Qed.

Lemma copysign_magnitude (x y : float) : abs (copysign x y) = abs x.
Proof.
  unfold copysign. destruct (signbit y).
  - rewrite abs_opp. apply abs_idem.
  - apply abs_idem.
Qed.

(** On a magnitude, [copysign] only decides whether to negate. *)
Lemma copysign_abs (x y : float) :
  copysign (abs x) y = if signbit y then - abs x else abs x.
Proof. unfold copysign. rewrite abs_idem. reflexivity. Qed.

Lemma eqb_zero_of_negative (x : float) : (x <? 0) = true -> (x =? 0) = false.
Proof.
  rewrite ltb_spec, eqb_spec, Prim2SF_zero. unfold SFltb, SFeqb.
  destruct (SFcompare (Prim2SF x) (S754_zero false)) as [[] |];
    try discriminate; reflexivity.
Qed.

Lemma is_nan_of_negative (x : float) : (x <? 0) = true -> is_nan x = false.
Proof.
  intros H. destruct (is_nan x) eqn:Hn; [| reflexivity].
  rewrite (nan_ltb_l x 0 Hn) in H. discriminate H.
Qed.

End SignFacts.

(* ===================================================================== *)
(** * Subtraction the other way round, NaN arithmetic *)
(* ===================================================================== *)

Section SubtractionFacts.

(** Rounding treats both signs alike. *)
Lemma binary_round_aux_negb (s : bool) (m e : Z) (l : location) :
  binary_round_aux prec emax (negb s) m e l =
  SFopp (binary_round_aux prec emax s m e l).
Proof.
  unfold binary_round_aux.
  destruct (shr_fexp prec emax m e l) as [mrs' e'].
  destruct (shr_fexp prec emax
              (round_nearest_even (shr_m mrs') (loc_of_shr_record mrs'))
              e' loc_Exact) as [mrs'' e''].
  destruct (shr_m mrs''); try reflexivity.
  destruct (Z.leb e'' (emax - prec)); reflexivity.
Qed.

Lemma binary_round_true (m : positive) (e : Z) :
  binary_round prec emax true m e = SFopp (binary_round prec emax false m e).
Proof.
  unfold binary_round.
  destruct (shl_align m e (fexp prec emax (Z.pos (digits2_pos m) + e)))
    as [mz ez].
  apply (binary_round_aux_negb false).
Qed.

Lemma binary_normalize_opp (m e : Z) :
  m <> 0%Z ->
  binary_normalize prec emax (- m) e false =
  SFopp (binary_normalize prec emax m e false).
Proof.
  destruct m as [| p | p]; simpl; intros H.
  - contradiction H; reflexivity.
  - apply binary_round_true.
  - rewrite binary_round_true.
    destruct (binary_round prec emax false p e) as [[] | [] | | [] ? ?];
      reflexivity.
Qed.

(** [y - x] is the opposite of [x - y], except that both are the positive
    zero when the operands cancel. *)
Lemma SFsub_swap (x y : spec_float) :
  SF64sub y x = SFopp (SF64sub x y) \/
  (SF64sub x y = S754_zero false /\ SF64sub y x = S754_zero false).
Proof.
  destruct x as [sx | sx | | sx mx ex], y as [sy | sy | | sy my ey];
    try (left; reflexivity);
    try (destruct sx, sy; (left; reflexivity) || (right; split; reflexivity));
    try (destruct sx; left; reflexivity);
    try (destruct sy; left; reflexivity).
  unfold SF64sub, SFsub. rewrite (Z.min_comm ey ex).
  set (ez := Z.min ex ey).
  set (A := cond_Zopp sx (Z.pos (fst (shl_align mx ex ez)))).
  set (B := cond_Zopp sy (Z.pos (fst (shl_align my ey ez)))).
  destruct (Z.eq_dec (A - B) 0) as [H0 | Hne].
  - right. replace (B - A)%Z with 0%Z by lia. rewrite H0.
    split; reflexivity.
  - left. replace (B - A)%Z with (- (A - B))%Z by lia.
    apply binary_normalize_opp. exact Hne.
Qed.

Lemma sub_swap (a b : float) :
  Prim2SF (b - a) = SFopp (Prim2SF (a - b)) \/
  (Prim2SF (a - b) = S754_zero false /\ Prim2SF (b - a) = S754_zero false).
Proof. rewrite !sub_spec. apply SFsub_swap. Qed.

Lemma Prim2SF_nan : Prim2SF nan = S754_nan.
Proof. reflexivity. Qed.

Lemma is_nan_eq (x : float) : is_nan x = true -> x = nan.
Proof.
  intros H. apply Prim2SF_inj. rewrite Prim2SF_nan.
  apply is_nan_Prim2SF. exact H.
Qed.

Lemma add_nan_l (y : float) : nan + y = nan.
Proof.
  apply Prim2SF_inj. rewrite add_spec, Prim2SF_nan. reflexivity.
Qed.

Lemma mul_nan_r (x : float) : x * nan = nan.
Proof.
  apply Prim2SF_inj. rewrite mul_spec, Prim2SF_nan.
  destruct (Prim2SF x); reflexivity.
Qed.

End SubtractionFacts.

(* ===================================================================== *)
(** * The far-field branch *)
(* ===================================================================== *)

Section FarField.

Lemma Prim2SF_one : Prim2SF 1 = S754_finite false 4503599627370496 (-52).
Proof. reflexivity. Qed.

Lemma is_nan_spec (x : float) :
  is_nan x = match Prim2SF x with S754_nan => true | _ => false end.
Proof.
  unfold is_nan. rewrite eqb_spec. unfold SFeqb.
  destruct (SFcompare_refl (Prim2SF x)) as [H | H]; rewrite H;
    destruct (Prim2SF x) as [[] | [] | | [] m e]; try reflexivity;
    simpl in H; discriminate H.
Qed.

(** A magnitude that is not below 1 is a NaN, an infinity or a finite
    non-zero number. *)
Lemma abs_far_cases (y : float) :
  (abs y <? 1) = false ->
  Prim2SF y = S754_nan \/ SF_nonzero_number (Prim2SF y).
Proof.
  rewrite ltb_spec, abs_spec, Prim2SF_one.
  destruct (Prim2SF y) as [s | s | | s m e]; simpl; auto.
  discriminate.
Qed.

Lemma abs_number_positive (y : float) :
  SF_nonzero_number (Prim2SF y) ->
  is_nan (abs y) = false /\ (0 <? abs y) = true.
Proof.
  rewrite is_nan_spec, ltb_spec, abs_spec, Prim2SF_zero.
  destruct (Prim2SF y) as [s | s | | s m e]; simpl; try contradiction;
    intros _; split; reflexivity.
Qed.

Lemma abs_of_nan (y : float) : Prim2SF y = S754_nan -> abs y = nan.
Proof.
  intros H. apply Prim2SF_inj. rewrite abs_spec, H. reflexivity.
Qed.

Lemma math_log10_nan (L : Libm) : math_log10 L nan = Ok nan.
Proof. reflexivity. Qed.

(** On the far-field branch the argument of [math.log10] is in its
    domain: the call returns. *)
Lemma math_log10_far (L : Libm) (y : float) :
  log10_sane L -> (abs y <? 1) = false ->
  exists l : float, math_log10 L (abs y) = Ok l.
Proof.
  intros Hsane Hfar.
  destruct (abs_far_cases y Hfar) as [Hnan | Hnum].
  - rewrite (abs_of_nan y Hnan). exists nan. reflexivity.
  - destruct (abs_number_positive y Hnum) as [Hn Hpos].
    unfold math_log10, math_1, m_log10.
    destruct (is_infinity (abs y)) eqn:Hinf.
    + exists (abs y).
      unfold is_finite. rewrite Hn, Hinf, Hpos. simpl.
      rewrite Hn, Hinf. reflexivity.
    + exists (libm_log10 L (abs y)).
      assert (Hfin : is_finite (abs y) = true)
        by (unfold is_finite; rewrite Hn, Hinf; reflexivity).
      pose proof (Hsane (abs y) Hfin Hpos) as Hr.
      rewrite Hfin, Hpos.
      unfold is_finite in Hr.
      destruct (is_nan (libm_log10 L (abs y))); [discriminate Hr |].
      destruct (is_infinity (libm_log10 L (abs y))); [discriminate Hr |].
      reflexivity.
Qed.

(** On an infinity or a finite non-zero number, [copysign(1, d)] is the
    sign of [d]. *)
Lemma copysign_one_sign (d : float) :
  SF_nonzero_number (Prim2SF d) -> copysign 1 d = spec_sign d.
Proof.
  unfold copysign, spec_sign.
  rewrite signbit_spec, !ltb_spec, Prim2SF_zero. unfold SFltb.
  destruct (Prim2SF d) as [s | [] | | [] m e]; simpl; try contradiction;
    intros _; reflexivity.
Qed.

Lemma far_field_sign (a b : float) :
  (abs (a - b) <? 1) = false -> is_nan (abs (a - b)) = false ->
  copysign 1 (b - a) = spec_sign (b - a).
Proof.
  intros Hfar Hn. apply copysign_one_sign.
  destruct (abs_far_cases (a - b) Hfar) as [Hnan | Hnum].
  - rewrite (abs_of_nan _ Hnan) in Hn. discriminate Hn.
  - destruct (sub_swap a b) as [-> | [Hz _]].
    + destruct (Prim2SF (a - b)); simpl in *; auto.
    + rewrite Hz in Hnum. contradiction.
Qed.

End FarField.

(* ===================================================================== *)
(** * The cloud classifier *)
(* ===================================================================== *)

Section Classifier.

Variables clear_limit cloudy_limit : float.

(** The three bands, read off the two comparisons of the source. *)
Lemma classify_CLEAR_iff (t : float) :
  classify_cloud_state t clear_limit cloudy_limit = CLEAR <-> (t <? clear_limit) = true.
Proof.
  unfold classify_cloud_state, gtb.
  destruct (t <? clear_limit); [tauto |].
  destruct (cloudy_limit <? t); split; discriminate.
Qed.

Lemma classify_VERY_CLOUDY_iff (t : float) :
  classify_cloud_state t clear_limit cloudy_limit = VERY_CLOUDY <->
  (t <? clear_limit) = false /\ gtb t cloudy_limit = true.
Proof.
  unfold classify_cloud_state, gtb.
  destruct (t <? clear_limit).
  - split; [discriminate | intros [H _]; discriminate H].
  - destruct (cloudy_limit <? t); split; try tauto; try discriminate.
    intros [_ H]; discriminate H.
Qed.

Lemma classify_CLOUDY_iff (t : float) :
  classify_cloud_state t clear_limit cloudy_limit = CLOUDY <->
  (t <? clear_limit) = false /\ gtb t cloudy_limit = false.
Proof.
  unfold classify_cloud_state, gtb.
  destruct (t <? clear_limit).
  - split; [discriminate | intros [H _]; discriminate H].
  - destruct (cloudy_limit <? t); split; try tauto; try discriminate.
    intros [_ H]; discriminate H.
Qed.

(** A boundary value is in the middle band exactly when the other boundary
    does not cut it off. *)
Lemma classify_clear_limit :
  classify_cloud_state clear_limit clear_limit cloudy_limit = CLOUDY <-> (cloudy_limit <? clear_limit) = false.
Proof.
  rewrite classify_CLOUDY_iff. unfold gtb. rewrite ltb_irrefl. tauto.
Qed.

Lemma classify_cloudy_limit :
  classify_cloud_state cloudy_limit clear_limit cloudy_limit = CLOUDY <-> (cloudy_limit <? clear_limit) = false.
Proof.
  rewrite classify_CLOUDY_iff. unfold gtb. rewrite ltb_irrefl. tauto.
Qed.

End Classifier.

(* ===================================================================== *)
(** * The drift corrector *)
(* ===================================================================== *)

Section DriftCorrector.

Variable L : Libm.

(** [tsky] is [ts] minus whatever [_td] produced, and raises what [_td]
    raised. *)
Lemma tsky_of_td (ts ta : float) (c : _HasCoeffs) :
  tsky L ts ta c =
  match _td L ta c with
  | Ok td => Ok (float_sub_obj ts td)
  | Raise e => Raise e
  end.
Proof. reflexivity. Qed.

(** [_td] from its three terms. *)
Lemma td_of_terms (ta : float) (c : _HasCoeffs) (t2 : pyobject) (t : float) :
  term2 L ta c = Ok t2 -> t67 L ta c = Ok t ->
  _td L ta c = Ok (obj_add_float (float_add_obj (term1 ta c) t2) t).
Proof. unfold _td. intros -> ->. reflexivity. Qed.

(** With a falsy [K3] the exponential is not evaluated. *)
Lemma term2_K3_zero (ta : float) (c : _HasCoeffs) :
  (K3 c =? 0) = true -> term2 L ta c = Ok (PyFloat 0).
Proof. unfold term2, truthy. intros ->. reflexivity. Qed.

(** An [OverflowError] inside the [try] is replaced by [0.0]; any other
    outcome of the [try] body is the outcome of [term2]. *)
Lemma term2_overflow (ta : float) (c : _HasCoeffs) :
  truthy (K3 c) = true -> term2_expr L ta c = Raise OverflowError ->
  term2 L ta c = Ok (PyFloat 0).
Proof. unfold term2. intros -> ->. reflexivity. Qed.

Lemma term2_other_exception (ta : float) (c : _HasCoeffs) (e : exn) :
  truthy (K3 c) = true -> term2_expr L ta c = Raise e ->
  e <> OverflowError -> term2 L ta c = Raise e.
Proof.
  unfold term2. intros -> -> He. destruct e; try reflexivity.
  contradiction He; reflexivity.
Qed.

(** The overflow can come from [math.exp] or from the power. *)
Lemma term2_expr_overflow_iff (ta : float) (c : _HasCoeffs) :
  term2_expr L ta c = Raise OverflowError <->
  math_exp L (K4 c / 1000 * ta) = Raise OverflowError \/
  exists e, math_exp L (K4 c / 1000 * ta) = Ok e /\
            float_pow L e (K5 c / 100) = Raise OverflowError.
Proof.
  unfold term2_expr.
  destruct (math_exp L (K4 c / 1000 * ta)) as [e | x]; simpl.
  - destruct (float_pow L e (K5 c / 100)) as [p | y] eqn:Hp; simpl.
    + split; [discriminate |].
      intros [H | (e' & H & H')]; [discriminate H |].
      injection H as <-. rewrite Hp in H'. discriminate H'.
    + split.
      * intros H. right. exists e. split; [reflexivity | rewrite Hp; exact H].
      * intros [H | (e' & H & H')]; [discriminate H |].
        injection H as <-. rewrite Hp in H'. exact H'.
  - split.
    + intros H. left. injection H as ->. reflexivity.
    + intros [H | (e' & H & _)]; [| discriminate H].
      injection H as ->. reflexivity.
Qed.

(** The near-field branch does not touch the C library. *)
Lemma t67_near (ta : float) (c : _HasCoeffs) :
  (delta ta c <? 1) = true ->
  t67 L ta c = Ok (copysign (delta ta c) (K6 c)).
Proof. unfold t67. intros ->. reflexivity. Qed.

End DriftCorrector.

(* ===================================================================== *)
(** * A zero raised to a negative power *)
(* ===================================================================== *)

(** The defect behind C1 and C3: a power of zero.  When [K3] is truthy,
    the C exponential of [K4/1000*ta] is zero (it underflows, or its
    argument is minus infinity) and [K5/100] is negative and finite, the
    power [0.0 ** (K5/100)] raises [ZeroDivisionError]; the handler only
    catches [OverflowError], so the exception leaves [tsky]. *)
Lemma float_pow_zero_negative (L : Libm) (iw : float) :
  (iw <? 0) = true -> is_infinity iw = false ->
  float_pow L 0 iw = Raise ZeroDivisionError.
Proof.
  intros Hneg Hfin. unfold float_pow.
  rewrite (eqb_zero_of_negative iw Hneg), (is_nan_of_negative iw Hneg), Hfin.
  change (is_nan 0) with false. change (is_infinity 0) with false.
  change (0 =? 0) with true. cbv iota. rewrite Hneg. reflexivity.
Qed.

Lemma tsky_zero_power
  (L : Libm) (ts ta : float) (c : _HasCoeffs) :
  truthy (K3 c) = true ->
  libm_exp L (K4 c / 1000 * ta) = 0 ->
  (K5 c / 100 <? 0) = true ->
  is_infinity (K5 c / 100) = false ->
  tsky L ts ta c = Raise ZeroDivisionError.
Proof.
  intros HK3 Hexp Hneg Hfin.
  assert (Hmexp : math_exp L (K4 c / 1000 * ta) = Ok 0).
  { unfold math_exp, math_1. rewrite Hexp. reflexivity. }
  assert (H2 : term2 L ta c = Raise ZeroDivisionError).
  { apply term2_other_exception; [exact HK3 | | discriminate].
    unfold term2_expr. rewrite Hmexp. simpl.
    rewrite (float_pow_zero_negative L _ Hneg Hfin). reflexivity. }
  unfold tsky, _td. rewrite H2. reflexivity.
Qed.

(* ===================================================================== *)
(** * The value and the outcomes of [tsky] *)
(* ===================================================================== *)

Section Outcomes.

Variable L : Libm.

(** The second term when nothing is raised: [(K3/100) * e ** (K5/100)]. *)
Lemma term2_value (ta : float) (c : _HasCoeffs) (e p : float) :
  truthy (K3 c) = true ->
  math_exp L (K4 c / 1000 * ta) = Ok e ->
  float_pow L e (K5 c / 100) = Ok (PyFloat p) ->
  term2 L ta c = Ok (PyFloat (K3 c / 100 * p)).
Proof.
  unfold term2, term2_expr. intros -> -> Hp. simpl. rewrite Hp. reflexivity.
Qed.

(** The third term, with the design document's [sign] in place of
    [copysign(1, .)]: on the far-field branch the two agree, or the
    logarithm is a NaN and so is the product. *)
Lemma t67_value (ta : float) (c : _HasCoeffs) (l : float) :
  ((delta ta c <? 1) = false -> math_log10 L (delta ta c) = Ok l) ->
  t67 L ta c = Ok (spec_t67 l ta c).
Proof.
  unfold t67, spec_t67. destruct (delta ta c <? 1) eqn:Hfar; intros Hl.
  - reflexivity.
  - rewrite (Hl eq_refl). simpl. f_equal.
    destruct (is_nan (delta ta c)) eqn:Hn.
    + assert (l = nan) as ->.
      { specialize (Hl eq_refl). rewrite (is_nan_eq _ Hn) in Hl.
        rewrite math_log10_nan in Hl. injection Hl as <-. reflexivity. }
      rewrite add_nan_l, !mul_nan_r. reflexivity.
    + unfold delta in Hfar, Hn.
      rewrite (far_field_sign (K2 c / 10) ta Hfar Hn). reflexivity.
Qed.

(** The value of [tsky], from the values of the second term and of the
    logarithm. *)
Theorem tsky_formula (ts ta : float) (c : _HasCoeffs) (t2 l : float) :
  term2 L ta c = Ok (PyFloat t2) ->
  ((delta ta c <? 1) = false -> math_log10 L (delta ta c) = Ok l) ->
  tsky L ts ta c = Ok (PyFloat (ts - (term1 ta c + t2 + spec_t67 l ta c))).
Proof.
  intros H2 Hl. rewrite tsky_of_td.
  rewrite (td_of_terms L ta c _ _ H2 (t67_value ta c l Hl)). reflexivity.
Qed.

(** ** Which exceptions can leave [tsky] *)

Lemma math_exp_outcomes (x : float) :
  exp_sane L ->
  math_exp L x = Raise OverflowError \/
  exists e : float, math_exp L x = Ok e /\ (e <? 0) = false.
Proof.
  intros Hsane. destruct (Hsane x) as [Hneg Hnan].
  unfold math_exp, math_1.
  destruct (is_nan (libm_exp L x)) eqn:En.
  - rewrite (Hnan eq_refl). simpl.
    unfold is_finite. rewrite (Hnan eq_refl). simpl.
    rewrite andb_false_r. right. eexists; split; [reflexivity | exact Hneg].
  - simpl.
    destruct (is_infinity (libm_exp L x) && is_finite x).
    + left; reflexivity.
    + right. eexists; split; [reflexivity | exact Hneg].
Qed.

(** The power of a base that is not negative: a float, an overflow, or a
    zero raised to a negative finite power. *)
Lemma float_pow_outcomes (iv iw : float) :
  (iv <? 0) = false ->
  (exists p : float, float_pow L iv iw = Ok (PyFloat p)) \/
  float_pow L iv iw = Raise OverflowError \/
  (float_pow L iv iw = Raise ZeroDivisionError /\
   (iv =? 0) = true /\ (iw <? 0) = true /\ is_infinity iw = false).
Proof.
  intros Hiv. unfold float_pow. rewrite Hiv. simpl.
  destruct (iw =? 0); [left; eexists; reflexivity |].
  destruct (is_nan iv); [left; eexists; reflexivity |].
  destruct (is_nan iw); [left; eexists; reflexivity |].
  destruct (is_infinity iw) eqn:Hinf.
  { destruct (abs iv =? 1); [left; eexists; reflexivity |].
    destruct (Bool.eqb (0 <? iw) (1 <? abs iv)); left; eexists; reflexivity. }
  destruct (is_infinity iv).
  { destruct (0 <? iw); left; eexists; reflexivity. }
  destruct (iv =? 0) eqn:Hz.
  { destruct (iw <? 0) eqn:Hneg.
    - right; right. repeat split; reflexivity.
    - left; eexists; reflexivity. }
  destruct (iv =? 1); [left; eexists; reflexivity |].
  destruct (is_infinity (libm_pow L iv iw)).
  - right; left; reflexivity.
  - left; eexists; reflexivity.
Qed.

(** With a C library that behaves, [tsky] returns a float on every input
    except one family: [K3] truthy, the exponential equal to zero and
    [K5/100] negative and finite.  There it raises [ZeroDivisionError]. *)
Theorem tsky_outcomes (ts ta : float) (c : _HasCoeffs) :
  exp_sane L -> log10_sane L ->
  (exists v : float, tsky L ts ta c = Ok (PyFloat v)) \/
  (tsky L ts ta c = Raise ZeroDivisionError /\
   truthy (K3 c) = true /\
   exists e : float,
     math_exp L (K4 c / 1000 * ta) = Ok e /\ (e =? 0) = true /\
     (K5 c / 100 <? 0) = true /\ is_infinity (K5 c / 100) = false).
Proof.
  intros Hexp Hlog.
  assert (Hl : exists l : float,
             (delta ta c <? 1) = false -> math_log10 L (delta ta c) = Ok l).
  { destruct (delta ta c <? 1) eqn:Hfar.
    - exists 0. discriminate.
    - destruct (math_log10_far L (K2 c / 10 - ta) Hlog Hfar) as [l Hl].
      exists l. intros _. exact Hl. }
  destruct Hl as [l Hl].
  assert (Hfloat : forall t2, term2 L ta c = Ok (PyFloat t2) ->
                   exists v : float, tsky L ts ta c = Ok (PyFloat v)).
  { intros t2 H2. eexists. apply (tsky_formula ts ta c t2 l H2 Hl). }
  destruct (truthy (K3 c)) eqn:HK3.
  2: { left. apply (Hfloat 0). unfold term2. rewrite HK3. reflexivity. }
  destruct (math_exp_outcomes (K4 c / 1000 * ta) Hexp) as [Hov | [e [He Hsign]]].
  { left. apply (Hfloat 0). apply term2_overflow; [exact HK3 |].
    unfold term2_expr. rewrite Hov. reflexivity. }
  destruct (float_pow_outcomes e (K5 c / 100) Hsign)
    as [[p Hp] | [Hov | (Hzd & Hz & Hneg & Hfin)]].
  - left. apply (Hfloat (K3 c / 100 * p)).
    apply (term2_value ta c e p HK3 He Hp).
  - left. apply (Hfloat 0). apply term2_overflow; [exact HK3 |].
    unfold term2_expr. rewrite He. simpl. rewrite Hov. reflexivity.
  - right. split; [| split; [reflexivity |]].
    + unfold tsky, _td.
      rewrite (term2_other_exception L ta c ZeroDivisionError HK3);
        [reflexivity | | discriminate].
      unfold term2_expr. rewrite He. simpl. rewrite Hzd. reflexivity.
    + exists e. repeat split; assumption.
Qed.

End Outcomes.

(** The two conditions on the C library are consistent: already a library
    of constant functions meets them. *)
Lemma sane_libm_exists : exists L : Libm, exp_sane L /\ log10_sane L.
Proof.
  exists {| libm_exp := fun _ => 1; libm_log10 := fun _ => 0;
            libm_pow := fun _ _ => 1; complex_pow_error := fun _ _ => None |}.
  split.
  - intros x. split; [reflexivity | discriminate].
  - intros x _ _. reflexivity.
Qed.

(* ===================================================================== *)
(** * Exact operations *)
(* ===================================================================== *)

(** Two floats with the same value compare equal: a valid finite float is
    the only canonical representation of its value. *)
Section ExactOperations.













End ExactOperations.

(* ===================================================================== *)
(** * The statements of the design document *)
(* ===================================================================== *)

(** C1 (code defect): [tsky] does not return [ts] minus the drift term on
    every input.  With [K3 = 1], [K4 = 100000], [K5 = -100] and [ta = -10]
    the second term is [0.01 * exp(-1000.0) ** -1.0]; the exponential
    underflows to [0.0] and the power raises [ZeroDivisionError], so no
    value [v] is the result of the call, whatever [ts] is. *)
Theorem tsky_returns_no_value
  (L : Libm) (ts : float) (v : pyobject)
  (Hunderflow : libm_exp L (-1000) = 0) :
  tsky L ts (-10) coeffs_negative_K5 <> Ok v.
Proof.
  rewrite (tsky_zero_power L ts (-10) coeffs_negative_K5);
    try reflexivity; [discriminate | exact Hunderflow].
Qed.

Lemma tsky_returns_no_value_witness :
  libm_exp SampleLibm.libm (-1000) = 0 /\
  tsky SampleLibm.libm (-30) (-10) coeffs_negative_K5 <>
    Ok (PyFloat minus_52_9).
Proof.
  split; [vm_compute; reflexivity |].
  apply (tsky_returns_no_value SampleLibm.libm (-30) (PyFloat minus_52_9)).
  vm_compute. reflexivity.
Defined.

(** C2 (as stated, for every pair of boundaries): refuted.  With the
    boundaries the wrong way round, [clear_limit = 0] and
    [cloudy_limit = -10], the value [clear_limit] is classified VERY_CLOUDY
    and the value [cloudy_limit] is classified CLEAR, so neither boundary
    value lands in the middle band. *)
Lemma classify_boundary_inverted_limits :
  classify_cloud_state 0 0 (-10) = VERY_CLOUDY /\
  classify_cloud_state (-10) 0 (-10) = CLEAR /\
  ~ (forall clear_limit cloudy_limit : float,
        classify_cloud_state clear_limit clear_limit cloudy_limit = CLOUDY /\
        classify_cloud_state cloudy_limit clear_limit cloudy_limit = CLOUDY).
Proof.
  split; [reflexivity | split; [reflexivity |]].
  intros H. destruct (H 0 (-10)) as [H0 _]. vm_compute in H0. discriminate H0.
Qed.

(** C2 (amended): for every corrected temperature [t] and every pair of
    boundaries, [classify_cloud_state] returns CLEAR iff [t < clear_limit],
    VERY_CLOUDY iff [t] is not below [clear_limit] and [t > cloudy_limit],
    and CLOUDY otherwise; and when [clear_limit <= cloudy_limit] both
    boundary values are classified CLOUDY. *)
Theorem classify_bands_and_boundaries
  (t clear_limit cloudy_limit : float) :
  (classify_cloud_state t clear_limit cloudy_limit = CLEAR <->
     (t <? clear_limit) = true) /\
  (classify_cloud_state t clear_limit cloudy_limit = VERY_CLOUDY <->
     (t <? clear_limit) = false /\ gtb t cloudy_limit = true) /\
  (classify_cloud_state t clear_limit cloudy_limit = CLOUDY <->
     (t <? clear_limit) = false /\ gtb t cloudy_limit = false) /\
  ((clear_limit <=? cloudy_limit) = true ->
   classify_cloud_state clear_limit clear_limit cloudy_limit = CLOUDY /\
   classify_cloud_state cloudy_limit clear_limit cloudy_limit = CLOUDY).
Proof.
  split; [apply classify_CLEAR_iff |].
  split; [apply classify_VERY_CLOUDY_iff |].
  split; [apply classify_CLOUDY_iff |].
  intros Hordered.
  pose proof (leb_not_gt _ _ Hordered) as Hnot.
  split.
  - apply classify_clear_limit; exact Hnot.
  - apply classify_cloudy_limit; exact Hnot.
Qed.

Lemma classify_bands_and_boundaries_witness :
  (default_clear_limit <=? default_cloudy_limit) = true /\
  classify_cloud_state default_clear_limit
    default_clear_limit default_cloudy_limit = CLOUDY /\
  classify_cloud_state default_cloudy_limit
    default_clear_limit default_cloudy_limit = CLOUDY.
Proof.
  split; [reflexivity |].
  destruct (classify_bands_and_boundaries (-12.5)
              default_clear_limit default_cloudy_limit) as (_ & _ & _ & H).
  apply H. reflexivity.
Defined.

(** C3 (code defect): [tsky] is not total.  On the reading of C1
    ([K3 = 1], [K4 = 100000], [K5 = -100], [ta = -10]) the power
    [0.0 ** -1.0] raises [ZeroDivisionError] inside the [try]; the handler
    catches [OverflowError] only, and the exception reaches the caller. *)
Theorem tsky_raises_ZeroDivisionError
  (L : Libm) (ts : float)
  (Hunderflow : libm_exp L (-1000) = 0) :
  tsky L ts (-10) coeffs_negative_K5 = Raise ZeroDivisionError.
Proof.
  apply tsky_zero_power; try reflexivity. exact Hunderflow.
Qed.

Lemma tsky_raises_ZeroDivisionError_witness :
  libm_exp SampleLibm.libm (-1000) = 0 /\
  tsky SampleLibm.libm (-30) (-10) coeffs_negative_K5 =
    Raise ZeroDivisionError.
Proof.
  split; [vm_compute; reflexivity |].
  apply (tsky_raises_ZeroDivisionError SampleLibm.libm (-30)).
  vm_compute. reflexivity.
Defined.

(** C4 (as stated): refuted.  An overflow of the representable range that
    Python does not report is not recovered.  With the finite [K4 = 2^1023]
    and the finite [ta = 2^40] the argument [K4/1000*ta] is already
    infinite, [math.exp(inf)] is [inf] without an exception, and the second
    term is plus infinity, not [0.0]; [tsky] returns minus infinity.  With
    [K3 = 2^1023], [K4 = 70000] and [ta = 10] the exponential [exp(700.0)]
    and the power are finite, their product with [K3/100] is infinite, and
    again the second term is plus infinity. *)
Lemma overflow_without_exception :
  is_finite (K4 coeffs_argument_overflow) = true /\
  is_finite ta_two_pow_40 = true /\
  K4 coeffs_argument_overflow / 1000 * ta_two_pow_40 = infinity /\
  term2 SampleLibm.libm ta_two_pow_40 coeffs_argument_overflow =
    Ok (PyFloat infinity) /\
  term2 SampleLibm.libm ta_two_pow_40 coeffs_argument_overflow <>
    Ok (PyFloat 0) /\
  tsky SampleLibm.libm (-30) ta_two_pow_40 coeffs_argument_overflow =
    Ok (PyFloat neg_infinity) /\
  is_finite (K3 coeffs_product_overflow) = true /\
  math_exp SampleLibm.libm (K4 coeffs_product_overflow / 1000 * 10) =
    Ok (SampleLibm.exp 700) /\
  is_finite (SampleLibm.exp 700) = true /\
  term2 SampleLibm.libm 10 coeffs_product_overflow = Ok (PyFloat infinity) /\
  term2 SampleLibm.libm 10 coeffs_product_overflow <> Ok (PyFloat 0).
Proof.
  repeat split; try (vm_compute; reflexivity); vm_compute; discriminate.
Qed.

(** C4 (amended): when evaluating the exponential of the second term
    raises [OverflowError] (in [math.exp] or in the power, see
    [term2_expr_overflow_iff]), the second term is exactly [0.0] and [tsky]
    returns [ts - (term1 + 0.0 + t67)]; the exception does not reach the
    caller. *)
Theorem overflow_is_recovered
  (L : Libm) (ts ta : float) (c : _HasCoeffs) (t : float)
  (Hoverflow : term2_expr L ta c = Raise OverflowError)
  (Ht67 : t67 L ta c = Ok t) :
  term2 L ta c = Ok (PyFloat 0) /\
  tsky L ts ta c = Ok (PyFloat (ts - (term1 ta c + 0 + t))).
Proof.
  assert (H2 : term2 L ta c = Ok (PyFloat 0)).
  { destruct (truthy (K3 c)) eqn:HK3.
    - apply term2_overflow; assumption.
    - unfold term2. rewrite HK3. reflexivity. }
  split; [exact H2 |].
  rewrite tsky_of_td, (td_of_terms L ta c _ _ H2 Ht67). reflexivity.
Qed.

Lemma overflow_is_recovered_witness :
  term2_expr SampleLibm.libm 10 coeffs_overflowing = Raise OverflowError /\
  t67 SampleLibm.libm 10 coeffs_overflowing = Ok (14 * 1 * (1 + 40 / 100)) /\
  tsky SampleLibm.libm (-30) 10 coeffs_overflowing = Ok (PyFloat minus_52_9).
Proof.
  split; [vm_compute; reflexivity |].
  split; [vm_compute; reflexivity |].
  destruct (overflow_is_recovered SampleLibm.libm (-30) 10 coeffs_overflowing
              (14 * 1 * (1 + 40 / 100)))
    as [_ H].
  - vm_compute; reflexivity.
  - vm_compute; reflexivity.
  - rewrite H. vm_compute. reflexivity.
Defined.

(** C5: the classifier is monotonic.  For fixed boundaries and
    [t1 <= t2], the state of [t1] is at most the state of [t2] in the order
    CLEAR (0) < CLOUDY (1) < VERY_CLOUDY (2). *)
Theorem classify_monotone
  (clear_limit cloudy_limit t1 t2 : float)
  (Hle : (t1 <=? t2) = true) :
  (CloudState_value (classify_cloud_state t1 clear_limit cloudy_limit) <=
   CloudState_value (classify_cloud_state t2 clear_limit cloudy_limit))%Z.
Proof.
  unfold classify_cloud_state, gtb.
  destruct (t2 <? clear_limit) eqn:H2.
  - (* t2 is CLEAR, so t1 is below the clear limit too *)
    rewrite (leb_ltb_trans _ _ _ Hle H2). simpl. lia.
  - destruct (t1 <? clear_limit) eqn:H1.
    + destruct (cloudy_limit <? t2); simpl; lia.
    + destruct (cloudy_limit <? t1) eqn:G1.
      * (* t1 is VERY_CLOUDY, so t2 is above the cloudy limit too *)
        rewrite (ltb_leb_trans _ _ _ G1 Hle). simpl. lia.
      * destruct (cloudy_limit <? t2); simpl; lia.
Qed.

Lemma classify_monotone_witness :
  (-20 <=? -5) = true /\
  (CloudState_value (classify_cloud_state (-20) (-17) (-8)) <=
   CloudState_value (classify_cloud_state (-5) (-17) (-8)))%Z.
Proof.
  split; [reflexivity |].
  apply (classify_monotone (-17) (-8) (-20) (-5)). reflexivity.
Defined.


(** The offset only enters through the final subtraction: the drift term
    [T = _td(ta, c)] does not depend on [ts]; [tsky(ts + d, ta, c)] is
    [(ts + d) - T] and [tsky(ts, ta, c) + d] is [(ts - T) + d], the same
    float when the drift term is the float [0.0]; when [_td] raises, both
    calls raise the same exception. *)
Lemma tsky_offset
  (L : Libm) (ts d ta : float) (c : _HasCoeffs) :
  match _td L ta c with
  | Ok T =>
      tsky L (ts + d) ta c = Ok (float_sub_obj (ts + d) T) /\
      plus_offset (tsky L ts ta c) d =
        Ok (obj_add_float (float_sub_obj ts T) d) /\
      (T = PyFloat 0 ->
       tsky L (ts + d) ta c = plus_offset (tsky L ts ta c) d)
  | Raise e =>
      tsky L (ts + d) ta c = Raise e /\
      plus_offset (tsky L ts ta c) d = Raise e
  end.
Proof.
  unfold plus_offset. rewrite !tsky_of_td.
  destruct (_td L ta c) as [T | e]; simpl.
  - split; [reflexivity | split; [reflexivity |]].
    intros ->. simpl. rewrite !sub_zero_r. reflexivity.
  - split; reflexivity.
Qed.

(** In the reading that refutes the statement as written, it is the
    subtraction [ts - T] that rounds. *)
Example subtraction_rounds_in_the_refutation :
  _td SampleLibm.libm 0.5 Skytemp = Ok (PyFloat 0x1.547ae147ae148p-1) /\
  exact_sub (-10) 0x1.547ae147ae148p-1 = false.
Proof. split; vm_compute; reflexivity. Qed.



(** C7: with [K3 == 0] the second term is exactly [0.0] whatever [K4] and
    [K5] are, the drift term is [term1 + 0.0 + t67], and two coefficient
    sets that agree on [K1], [K2], [K6], [K7] and both have [K3 == 0] give
    the same [tsky] result. *)
Theorem K3_zero_disables_term2
  (L : Libm) (ts ta : float) (c c' : _HasCoeffs)
  (HK3 : (K3 c =? 0) = true) (HK3' : (K3 c' =? 0) = true)
  (H1 : K1 c = K1 c') (H2 : K2 c = K2 c')
  (H6 : K6 c = K6 c') (H7 : K7 c = K7 c') :
  term2 L ta c = Ok (PyFloat 0) /\
  _td L ta c = (t <- t67 L ta c ;; Ok (PyFloat (term1 ta c + 0 + t))) /\
  tsky L ts ta c = tsky L ts ta c'.
Proof.
  split; [apply term2_K3_zero; exact HK3 |].
  split.
  - unfold _td. rewrite (term2_K3_zero L ta c HK3). reflexivity.
  - unfold tsky, _td.
    rewrite (term2_K3_zero L ta c HK3), (term2_K3_zero L ta c' HK3').
    unfold t67, delta, term1. rewrite H1, H2, H6, H7. reflexivity.
Qed.

Lemma K3_zero_disables_term2_witness :
  (K3 Skytemp =? 0) = true /\
  (K3 coeffs_K3_neg_zero =? 0) = true /\
  tsky SampleLibm.libm (-30) 10 Skytemp =
  tsky SampleLibm.libm (-30) 10 coeffs_K3_neg_zero.
Proof.
  split; [reflexivity | split; [reflexivity |]].
  apply (K3_zero_disables_term2 SampleLibm.libm (-30) 10 Skytemp
           coeffs_K3_neg_zero);
    reflexivity.
Defined.

(** C8 (as stated): refuted for a negative zero.  With [K6 = -0.0],
    [K2 = 0] and [ta = 0.5] the near-field branch is taken with
    [delta = 0.5]; [K6] is a zero, so the stated rule (sign of zero treated
    as positive) gives [+0.5], but [copysign] reads the sign bit and the
    code produces [-0.5].  No C library function is called on this
    branch. *)
Lemma t67_negative_zero_K6 :
  (K6 coeffs_K6_neg_zero =? 0) = true /\
  (delta 0.5 coeffs_K6_neg_zero <? 1) = true /\
  signed_like_zero_positive (delta 0.5 coeffs_K6_neg_zero)
    (K6 coeffs_K6_neg_zero) = 0.5 /\
  t67 SampleLibm.libm 0.5 coeffs_K6_neg_zero = Ok (-0.5) /\
  t67 SampleLibm.libm 0.5 coeffs_K6_neg_zero <>
  Ok (signed_like_zero_positive (delta 0.5 coeffs_K6_neg_zero)
        (K6 coeffs_K6_neg_zero)).
Proof.
  repeat split; try reflexivity.
  vm_compute. discriminate.
Qed.

(** C8 (amended): when [delta = |K2/10 - ta| < 1], the third component is
    [copysign(delta, K6)]: its magnitude is [delta] and its sign is the
    sign bit of [K6], so it is [-delta] for a negative [K6] and for
    [K6 = -0.0], and [+delta] for a positive [K6] and for [K6 = +0.0]; the
    result is the same for every C library, that is, no logarithm is
    evaluated on this branch. *)
Theorem t67_near_field
  (L : Libm) (ta : float) (c : _HasCoeffs)
  (Hnear : (delta ta c <? 1) = true) :
  t67 L ta c = Ok (copysign (delta ta c) (K6 c)) /\
  abs (copysign (delta ta c) (K6 c)) = delta ta c /\
  ((K6 c <? 0) = true -> copysign (delta ta c) (K6 c) = - delta ta c) /\
  (K6 c = -0 -> copysign (delta ta c) (K6 c) = - delta ta c) /\
  ((0 <? K6 c) = true -> copysign (delta ta c) (K6 c) = delta ta c) /\
  (K6 c = 0 -> copysign (delta ta c) (K6 c) = delta ta c) /\
  (forall L' : Libm, t67 L' ta c = t67 L ta c).
Proof.
  assert (Habs : abs (delta ta c) = delta ta c)
    by (unfold delta; apply abs_idem).
  assert (Hcs : copysign (delta ta c) (K6 c) =
                if signbit (K6 c) then - delta ta c else delta ta c).
  { unfold copysign. rewrite Habs. reflexivity. }
  split; [apply t67_near; exact Hnear |].
  split; [rewrite copysign_magnitude; exact Habs |].
  split; [intros H; rewrite Hcs, (signbit_of_negative _ H); reflexivity |].
  split; [intros H; rewrite Hcs, H; reflexivity |].
  split; [intros H; rewrite Hcs, (signbit_of_positive _ H); reflexivity |].
  split; [intros H; rewrite Hcs, H; reflexivity |].
  intros L'. rewrite !t67_near by exact Hnear. reflexivity.
Qed.

Lemma t67_near_field_witness :
  (delta 0.5 Skytemp <? 1) = true /\
  t67 SampleLibm.libm 0.5 Skytemp = Ok 0.5.
Proof.
  split; [reflexivity |].
  destruct (t67_near_field SampleLibm.libm 0.5 Skytemp) as [H _].
  - reflexivity.
  - rewrite H. reflexivity.
Defined.

(** C9: the two worked cases with the default coefficients and the default
    boundaries, for every C library whose [log10] is exact at 10:
    [tsky(-30, 10)] is the binary64 number nearest to -52.9 and is
    classified CLEAR; [tsky(-5, 0)] is -5 and is classified VERY_CLOUDY. *)
Theorem default_worked_cases
  (L : Libm) (Hlog : libm_log10 L 10 = 1) :
  tsky L (-30) 10 Skytemp = Ok (PyFloat minus_52_9) /\
  classify_cloud_state_default minus_52_9 = CLEAR /\
  tsky L (-5) 0 Skytemp = Ok (PyFloat (-5)) /\
  classify_cloud_state_default (-5) = VERY_CLOUDY.
Proof.
  split; [| split; [reflexivity | split; reflexivity]].
  assert (Hl : math_log10 L 10 = Ok 1).
  { unfold math_log10, math_1, m_log10.
    change (is_finite 10) with true. change (0 <? 10) with true.
    cbv iota. rewrite Hlog. reflexivity. }
  assert (Hd : delta 10 Skytemp = 10) by reflexivity.
  assert (Ht : t67 L 10 Skytemp = Ok (14 * 1 * (1 + 40 / 100))).
  { unfold t67. rewrite Hd. change (10 <? 1) with false. cbv iota.
    rewrite Hl. reflexivity. }
  rewrite tsky_of_td.
  rewrite (td_of_terms L 10 Skytemp (PyFloat 0) _ eq_refl Ht).
  reflexivity.
Qed.

Lemma default_worked_cases_witness :
  libm_log10 SampleLibm.libm 10 = 1 /\
  tsky SampleLibm.libm (-30) 10 Skytemp = Ok (PyFloat minus_52_9).
Proof.
  split; [vm_compute; reflexivity |].
  apply (default_worked_cases SampleLibm.libm). vm_compute. reflexivity.
Defined.

(** C10: a NaN corrected temperature is classified CLOUDY, whatever the
    boundaries are: both strict comparisons are false and the fall-through
    branch is taken. *)
Theorem classify_nan_is_CLOUDY
  (t clear_limit cloudy_limit : float)
  (Hnan : is_nan t = true) :
  classify_cloud_state t clear_limit cloudy_limit = CLOUDY.
Proof.
  unfold classify_cloud_state, gtb.
  rewrite (nan_ltb_l t clear_limit Hnan), (nan_ltb_r cloudy_limit t Hnan).
  reflexivity.
Qed.

Lemma classify_nan_is_CLOUDY_witness :
  is_nan nan = true /\
  classify_cloud_state nan default_clear_limit default_cloudy_limit = CLOUDY.
Proof.
  split; [reflexivity |].
  apply (classify_nan_is_CLOUDY nan default_clear_limit default_cloudy_limit).
  reflexivity.
Defined.

(* ===================================================================== *)
(** * More binary64 facts: classes, infinities, zeros *)
(* ===================================================================== *)

Section ClassFacts.

Lemma Prim2SF_infinity : Prim2SF infinity = S754_infinity false.
Proof. reflexivity. Qed.

Lemma Prim2SF_neg_infinity : Prim2SF neg_infinity = S754_infinity true.
Proof. reflexivity. Qed.

Lemma is_infinity_spec (x : float) :
  is_infinity x = match Prim2SF x with S754_infinity _ => true | _ => false end.
Proof.
  unfold is_infinity. rewrite eqb_spec, abs_spec, Prim2SF_infinity.
  destruct (Prim2SF x) as [s | s | | s m e]; reflexivity.
Qed.

Lemma is_finite_spec (x : float) :
  is_finite x =
  match Prim2SF x with
  | S754_zero _ | S754_finite _ _ _ => true
  | _ => false
  end.
Proof.
  unfold is_finite. rewrite is_nan_spec, is_infinity_spec.
  destruct (Prim2SF x); reflexivity.
Qed.

(** Among numbers the order is total. *)
Lemma SFltb_false_leb (x y : spec_float) :
  x <> S754_nan -> y <> S754_nan -> SFltb x y = false -> SFleb y x = true.
Proof.
  unfold SFltb, SFleb.
  destruct x as [[] | [] | | [] mx ex], y as [[] | [] | | [] my ey];
    simpl; intros Hx Hy H; try reflexivity; try discriminate H;
    try (contradiction Hx; reflexivity); try (contradiction Hy; reflexivity);
    rewrite ?compare_cont_Eq in *;
    destruct (Z.compare_spec ex ey); destruct (Z.compare_spec ey ex);
    try lia; simpl in *; try reflexivity; try discriminate H;
    destruct (Pos.compare_spec mx my); destruct (Pos.compare_spec my mx);
    try lia; simpl in *; try reflexivity; try discriminate H.
Qed.

Lemma ltb_false_leb (x y : float) :
  is_nan x = false -> is_nan y = false ->
  (x <? y) = false -> (y <=? x) = true.
Proof.
  rewrite !is_nan_spec, ltb_spec, leb_spec. intros Hx Hy.
  apply SFltb_false_leb; intros E; rewrite E in *; discriminate.
Qed.

Lemma ltb_not_nan_r (x y : float) : (x <? y) = true -> is_nan y = false.
Proof.
  intros H. destruct (is_nan y) eqn:Hn; [| reflexivity].
  rewrite (nan_ltb_r x y Hn) in H. discriminate H.
Qed.

(** Infinities against finite numbers. *)
Lemma neg_infinity_below (x : float) :
  is_finite x = true -> (neg_infinity <? x) = true.
Proof.
  rewrite is_finite_spec, ltb_spec, Prim2SF_neg_infinity.
  destruct (Prim2SF x); try discriminate; reflexivity.
Qed.

Lemma infinity_above (x : float) :
  is_finite x = true -> (x <? infinity) = true.
Proof.
  rewrite is_finite_spec, ltb_spec, Prim2SF_infinity.
  destruct (Prim2SF x); try discriminate; reflexivity.
Qed.

Lemma infinity_not_below (x : float) : (infinity <? x) = false.
Proof.
  rewrite ltb_spec, Prim2SF_infinity.
  destruct (Prim2SF x) as [s | [] | | s m e]; reflexivity.
Qed.

Lemma add_infinity_r (x : float) :
  is_finite x = true -> x + infinity = infinity.
Proof.
  rewrite is_finite_spec. intros H. apply Prim2SF_inj.
  rewrite add_spec, Prim2SF_infinity.
  destruct (Prim2SF x); try discriminate H; reflexivity.
Qed.

Lemma add_infinity_l (y : float) :
  is_finite y = true -> infinity + y = infinity.
Proof.
  rewrite is_finite_spec. intros H. apply Prim2SF_inj.
  rewrite add_spec, Prim2SF_infinity.
  destruct (Prim2SF y); try discriminate H; reflexivity.
Qed.

Lemma sub_infinity_r (x : float) :
  is_finite x = true -> x - infinity = neg_infinity.
Proof.
  rewrite is_finite_spec. intros H. apply Prim2SF_inj.
  rewrite sub_spec, Prim2SF_infinity, Prim2SF_neg_infinity.
  destruct (Prim2SF x); try discriminate H; reflexivity.
Qed.

(** NaN on either side of a subtraction. *)
Lemma sub_nan_l (y : float) : nan - y = nan.
Proof. apply Prim2SF_inj. rewrite sub_spec, Prim2SF_nan. reflexivity. Qed.

Lemma sub_nan_r (x : float) : x - nan = nan.
Proof.
  apply Prim2SF_inj. rewrite sub_spec, Prim2SF_nan.
  destruct (Prim2SF x); reflexivity.
Qed.

(** A square is never negative. *)
Lemma mul_self_not_negative (q : float) : (q * q <? 0) = false.
Proof.
  rewrite ltb_spec, mul_spec, Prim2SF_zero. unfold SF64mul, SFmul.
  destruct (Prim2SF q) as [[] | [] | | s m e]; try reflexivity.
  replace (xorb s s) with false by (destruct s; reflexivity).
  unfold binary_round_aux.
  destruct (shr_fexp prec emax (Z.pos (m * m)) (e + e) loc_Exact)
    as [mrs' e'].
  destruct (shr_fexp prec emax
              (round_nearest_even (shr_m mrs') (loc_of_shr_record mrs'))
              e' loc_Exact) as [mrs'' e''].
  destruct (shr_m mrs''); try reflexivity.
  destruct (Z.leb e'' (emax - prec)); reflexivity.
Qed.

End ClassFacts.

Section ZeroFacts.

Lemma eqb_zero_is_zero (x : float) : (x =? 0) = true -> is_a_zero x.
Proof.
  rewrite eqb_spec, Prim2SF_zero. unfold SFeqb, is_a_zero.
  destruct (Prim2SF x) as [s | [] | | [] m e]; simpl; try discriminate.
  intros _. exists s. reflexivity.
Qed.

Lemma zero_not_nan (x : float) : is_a_zero x -> is_nan x = false.
Proof. intros [s H]. rewrite is_nan_spec, H. reflexivity. Qed.

Lemma zero_not_infinity (x : float) : is_a_zero x -> is_infinity x = false.
Proof. intros [s H]. rewrite is_infinity_spec, H. reflexivity. Qed.

Lemma zero_eqb_zero (x : float) : is_a_zero x -> (x =? 0) = true.
Proof. intros [s H]. rewrite eqb_spec, H. reflexivity. Qed.

Lemma abs_of_zero (x : float) : is_a_zero x -> abs x = 0.
Proof.
  intros [s H]. apply Prim2SF_inj. rewrite abs_spec, H. reflexivity.
Qed.

Lemma zero_plus_pos_zero (x : float) : is_a_zero x -> x + 0 = 0.
Proof.
  intros [s H]. apply Prim2SF_inj. rewrite add_spec, H, Prim2SF_zero.
  destruct s; reflexivity.
Qed.

Lemma pos_zero_plus_zero (x : float) : is_a_zero x -> 0 + x = 0.
Proof.
  intros [s H]. apply Prim2SF_inj. rewrite add_spec, H, Prim2SF_zero.
  destruct s; reflexivity.
Qed.

Lemma mul_finite_zero (k d : float) :
  is_finite k = true -> is_a_zero d -> is_a_zero (k * d).
Proof.
  rewrite is_finite_spec. intros Hk [s H]. unfold is_a_zero.
  rewrite mul_spec, H.
  destruct (Prim2SF k) as [sk | sk | | sk m e]; try discriminate Hk;
    eexists; reflexivity.
Qed.

Lemma copysign_zero_is_zero (y : float) : is_a_zero (copysign 0 y).
Proof.
  unfold copysign. destruct (signbit y); eexists; reflexivity.
Qed.

Lemma SFsub_diag_finite (s : bool) (m : positive) (e : Z) :
  SF64sub (S754_finite s m e) (S754_finite s m e) = S754_zero false.
Proof.
  unfold SF64sub, SFsub. rewrite Z.sub_diag. reflexivity.
Qed.

(** Two finite floats that compare equal differ by a zero, in either
    order. *)
Lemma SFsub_of_equal (x y : spec_float) :
  SFeqb x y = true ->
  match x with S754_zero _ | S754_finite _ _ _ => True | _ => False end ->
  exists s : bool, SF64sub x y = S754_zero s.
Proof.
  intros H Hx.
  destruct x as [sx | sx | | sx mx ex]; try contradiction;
    destruct y as [sy | sy | | sy my ey];
    try (destruct sx, sy; discriminate H);
    try (destruct sx; discriminate H);
    try (destruct sx, sy; eexists; reflexivity).
  assert (sx = sy /\ ex = ey /\ mx = my) as (-> & -> & ->).
  { unfold SFeqb in H. simpl in H. rewrite !compare_cont_Eq in H.
    destruct sx, sy; try discriminate H;
      destruct (Z.compare_spec ex ey); try discriminate H;
      destruct (Pos.compare_spec mx my); try discriminate H; auto. }
  exists false. apply SFsub_diag_finite.
Qed.

Lemma sub_of_equal (a b : float) :
  (a =? b) = true -> is_finite a = true ->
  is_a_zero (a - b) /\ is_a_zero (b - a).
Proof.
  rewrite eqb_spec, is_finite_spec. intros Heq Hfin.
  assert (Hab : is_a_zero (a - b)).
  { unfold is_a_zero. rewrite sub_spec. apply SFsub_of_equal; [exact Heq |].
    destruct (Prim2SF a); try discriminate Hfin; exact I. }
  split; [exact Hab |].
  destruct Hab as [s Hs].
  destruct (sub_swap a b) as [H | [_ H]]; unfold is_a_zero; rewrite H.
  - rewrite Hs. eexists; reflexivity.
  - eexists; reflexivity.
Qed.

End ZeroFacts.

(* ===================================================================== *)
(** * The guarded library behaves *)
(* ===================================================================== *)

Section GuardedLibrary.

Lemma square_n_succ (n : nat) (x : float) :
  SampleLibm.square_n (S n) x =
  SampleLibm.square_n n x * SampleLibm.square_n n x.
Proof.
  revert x. induction n as [| n IH]; intros x.
  - reflexivity.
  - change (SampleLibm.square_n (S (S n)) x)
      with (SampleLibm.square_n (S n) (x * x)).
    rewrite IH. reflexivity.
Qed.

Lemma sample_exp_not_negative (x : float) : (SampleLibm.exp x <? 0) = false.
Proof.
  unfold SampleLibm.exp.
  destruct (is_nan x) eqn:Hn; [apply nan_ltb_l; exact Hn |].
  destruct (x <? -746); [reflexivity |].
  destruct (710 <? x); [reflexivity |].
  rewrite square_n_succ. apply mul_self_not_negative.
Qed.

Lemma guarded_exp_sane : exp_sane GuardedLibm.libm.
Proof.
  intros x. simpl. unfold GuardedLibm.exp.
  destruct (is_nan (SampleLibm.exp x)) eqn:Hr, (is_nan x) eqn:Hx; simpl.
  - split; [apply sample_exp_not_negative | reflexivity].
  - split; [reflexivity | discriminate].
  - split; [apply sample_exp_not_negative | reflexivity].
  - split; [apply sample_exp_not_negative |].
    rewrite Hr. discriminate.
Qed.

Lemma guarded_log10_sane : log10_sane GuardedLibm.libm.
Proof.
  intros x _ _. simpl. unfold GuardedLibm.log10.
  destruct (is_finite (SampleLibm.log10 x)) eqn:H; [exact H | reflexivity].
Qed.

End GuardedLibrary.

(* ===================================================================== *)
(** * Further properties of the drift corrector *)
(* ===================================================================== *)

Section DriftCorrectorEdges.

Variable L : Libm.

(** A zero of either sign raised to a negative finite power. *)
Lemma float_pow_zero_base (e iw : float) :
  is_a_zero e -> (iw <? 0) = true -> is_infinity iw = false ->
  float_pow L e iw = Raise ZeroDivisionError.
Proof.
  intros He Hneg Hfin. unfold float_pow.
  rewrite (eqb_zero_of_negative iw Hneg), (zero_not_nan e He),
    (is_nan_of_negative iw Hneg), Hfin, (zero_not_infinity e He),
    (zero_eqb_zero e He), Hneg.
  reflexivity.
Qed.

(** On the far-field branch the difference [ta - K2/10] is an infinity or
    a finite non-zero number. *)
Lemma far_field_difference (a b : float) :
  (abs (a - b) <? 1) = false -> is_nan (abs (a - b)) = false ->
  SF_nonzero_number (Prim2SF (b - a)).
Proof.
  intros Hfar Hn.
  destruct (abs_far_cases (a - b) Hfar) as [Hnan | Hnum].
  - rewrite (abs_of_nan _ Hnan) in Hn. discriminate Hn.
  - destruct (sub_swap a b) as [-> | [Hz _]].
    + destruct (Prim2SF (a - b)); simpl in *; auto.
    + rewrite Hz in Hnum. contradiction.
Qed.

Lemma spec_sign_of_number (d : float) :
  SF_nonzero_number (Prim2SF d) -> spec_sign d = 1 \/ spec_sign d = -1.
Proof.
  unfold spec_sign. rewrite !ltb_spec, Prim2SF_zero. unfold SFltb.
  destruct (Prim2SF d) as [s | [] | | [] m e]; simpl; try contradiction;
    intros _; auto.
Qed.

(** Both comparisons of the classifier are false on a NaN. *)
Lemma classify_nan_is_CLOUDY_general (t clear_limit cloudy_limit : float) :
  is_nan t = true ->
  classify_cloud_state t clear_limit cloudy_limit = CLOUDY.
Proof.
  intros Hnan. apply classify_CLOUDY_iff. unfold gtb.
  split; [apply nan_ltb_l | apply nan_ltb_r]; exact Hnan.
Qed.

(** [math.log10] is only reached inside its domain. *)
Lemma t67_never_raises_general (ta : float) (c : _HasCoeffs) :
  log10_sane L -> exists t : float, t67 L ta c = Ok t.
Proof.
  intros Hlog. unfold t67. destruct (delta ta c <? 1) eqn:Hfar.
  - eexists; reflexivity.
  - unfold delta in *.
    destruct (math_log10_far L (K2 c / 10 - ta) Hlog Hfar) as [l Hl].
    rewrite Hl. eexists; reflexivity.
Qed.

(** The summands of the drift term when the ambient reading is a NaN. *)
Lemma term1_of_nan (c : _HasCoeffs) : term1 nan c = nan.
Proof. unfold term1. rewrite sub_nan_l, mul_nan_r. reflexivity. Qed.

End DriftCorrectorEdges.

(** X1: with a C library that behaves, the only exception that leaves
    [tsky] is [ZeroDivisionError]; otherwise a float is returned (never a
    complex number).  The exception is raised exactly when [K3] is truthy,
    [math.exp] returns a zero and [K5/100] is negative and finite. *)
Theorem tsky_exceptions
  (L : Libm) (ts ta : float) (c : _HasCoeffs)
  (Hexp : exp_sane L) (Hlog : log10_sane L) :
  ((exists v : float, tsky L ts ta c = Ok (PyFloat v)) \/
   tsky L ts ta c = Raise ZeroDivisionError) /\
  (tsky L ts ta c = Raise ZeroDivisionError <->
   truthy (K3 c) = true /\
   exists e : float,
     math_exp L (K4 c / 1000 * ta) = Ok e /\ (e =? 0) = true /\
     (K5 c / 100 <? 0) = true /\ is_infinity (K5 c / 100) = false).
Proof.
  pose proof (tsky_outcomes L ts ta c Hexp Hlog) as Hout.
  split.
  - destruct Hout as [Hv | [Hr _]]; [left; exact Hv | right; exact Hr].
  - split.
    + intros Hr. destruct Hout as [[v Hv] | [_ Hcond]]; [| exact Hcond].
      rewrite Hv in Hr. discriminate Hr.
    + intros (HK3 & e & He & Hz & Hneg & Hfin).
      unfold tsky, _td.
      rewrite (term2_other_exception L ta c ZeroDivisionError HK3);
        [reflexivity | | discriminate].
      unfold term2_expr. rewrite He. simpl.
      rewrite (float_pow_zero_base L e _ (eqb_zero_is_zero e Hz) Hneg Hfin).
      reflexivity.
Qed.

Lemma tsky_exceptions_witness :
  exp_sane GuardedLibm.libm /\ log10_sane GuardedLibm.libm /\
  tsky GuardedLibm.libm (-30) (-10) coeffs_negative_K5 =
    Raise ZeroDivisionError /\
  exists v : float,
    tsky GuardedLibm.libm (-30) 10 coeffs_negative_K5 = Ok (PyFloat v).
Proof.
  split; [exact guarded_exp_sane |].
  split; [exact guarded_log10_sane |].
  split.
  - apply (tsky_exceptions GuardedLibm.libm (-30) (-10) coeffs_negative_K5
             guarded_exp_sane guarded_log10_sane).
    split; [reflexivity |].
    exists 0. repeat split; vm_compute; reflexivity.
  - destruct (tsky_exceptions GuardedLibm.libm (-30) 10 coeffs_negative_K5
                guarded_exp_sane guarded_log10_sane) as [[Hv | Hr] _].
    + exact Hv.
    + vm_compute in Hr. discriminate Hr.
Defined.

(** X2: the third component never raises.  [math.log10] is only reached
    with a NaN, with plus infinity or with a finite number that is at
    least 1, so its domain errors cannot occur. *)
Theorem t67_never_raises
  (L : Libm) (ta : float) (c : _HasCoeffs)
  (Hlog : log10_sane L) :
  (exists t : float, t67 L ta c = Ok t) /\
  ((delta ta c <? 1) = false ->
   exists l : float, math_log10 L (delta ta c) = Ok l).
Proof.
  split; [apply t67_never_raises_general; exact Hlog |].
  intros Hfar. unfold delta in *.
  apply (math_log10_far L (K2 c / 10 - ta) Hlog Hfar).
Qed.

Lemma t67_never_raises_witness :
  log10_sane GuardedLibm.libm /\
  exists t : float, t67 GuardedLibm.libm 0 coeffs_centre_12_5 = Ok t.
Proof.
  split; [exact guarded_log10_sane |].
  apply (t67_never_raises GuardedLibm.libm 0 coeffs_centre_12_5).
  exact guarded_log10_sane.
Defined.

(** X3: on the far-field branch ([delta] a number, not below 1) the factor
    [copysign(1, ta - K2/10)] is the sign of [ta - K2/10] and is [+1] or
    [-1], never [0]; the third component is
    [(K6/10) * sign(ta - K2/10) * (log10(delta) + K7/100)]. *)
Theorem t67_far_field
  (L : Libm) (ta : float) (c : _HasCoeffs) (l : float)
  (Hfar : (delta ta c <? 1) = false)
  (Hnum : is_nan (delta ta c) = false)
  (Hl : math_log10 L (delta ta c) = Ok l) :
  t67 L ta c =
    Ok (K6 c / 10 * spec_sign (ta - K2 c / 10) * (l + K7 c / 100)) /\
  copysign 1 (ta - K2 c / 10) = spec_sign (ta - K2 c / 10) /\
  (spec_sign (ta - K2 c / 10) = 1 \/ spec_sign (ta - K2 c / 10) = -1).
Proof.
  pose proof (far_field_difference (K2 c / 10) ta Hfar Hnum) as Hd.
  pose proof (copysign_one_sign _ Hd) as Hs.
  split; [| split; [exact Hs | apply spec_sign_of_number; exact Hd]].
  unfold t67. rewrite Hfar, Hl. simpl. rewrite Hs. reflexivity.
Qed.

Lemma t67_far_field_witness :
  (delta 0 coeffs_centre_12_5 <? 1) = false /\
  math_log10 SampleLibm.libm 12.5 = Ok (SampleLibm.log10 12.5) /\
  spec_sign (0 - K2 coeffs_centre_12_5 / 10) = -1 /\
  t67 SampleLibm.libm 0 coeffs_centre_12_5 =
    Ok (14 * -1 * (SampleLibm.log10 12.5 + 40 / 100)).
Proof.
  split; [reflexivity |].
  split; [vm_compute; reflexivity |].
  split; [reflexivity |].
  destruct (t67_far_field SampleLibm.libm 0 coeffs_centre_12_5
              (SampleLibm.log10 12.5)) as [H _].
  - reflexivity.
  - reflexivity.
  - vm_compute; reflexivity.
  - rewrite H. vm_compute. reflexivity.
Defined.

(** X4: a NaN reading never yields CLEAR or VERY_CLOUDY.  When the raw sky
    temperature or the ambient temperature is a NaN, every float that
    [tsky] returns is a NaN, and the classifier maps it to CLOUDY for any
    boundaries. *)
Theorem nan_reading_is_CLOUDY
  (L : Libm) (ts ta : float) (c : _HasCoeffs) (v : float)
  (clear_limit cloudy_limit : float)
  (Hnan : is_nan ts = true \/ is_nan ta = true)
  (Hret : tsky L ts ta c = Ok (PyFloat v)) :
  v = nan /\ classify_cloud_state v clear_limit cloudy_limit = CLOUDY.
Proof.
  assert (Hv : v = nan).
  { rewrite tsky_of_td in Hret. unfold _td in Hret.
    destruct (term2 L ta c) as [[t2 |] | e2]; simpl in Hret;
      try discriminate Hret;
      destruct (t67 L ta c) as [t | e]; simpl in Hret;
      try discriminate Hret.
    injection Hret as <-.
    destruct Hnan as [H | H].
    - rewrite (is_nan_eq ts H). apply sub_nan_l.
    - rewrite (is_nan_eq ta H), term1_of_nan, !add_nan_l. apply sub_nan_r. }
  split; [exact Hv |].
  apply classify_nan_is_CLOUDY_general. rewrite Hv. reflexivity.
Qed.

Lemma nan_reading_is_CLOUDY_witness :
  is_nan nan = true /\
  tsky SampleLibm.libm (-30) nan Skytemp = Ok (PyFloat nan) /\
  classify_cloud_state nan default_clear_limit default_cloudy_limit = CLOUDY.
Proof.
  split; [reflexivity |].
  split; [vm_compute; reflexivity |].
  apply (nan_reading_is_CLOUDY SampleLibm.libm (-30) nan Skytemp nan
           default_clear_limit default_cloudy_limit).
  - right; reflexivity.
  - vm_compute; reflexivity.
Defined.

(** X5: with the exponential term switched off ([K3 == 0], the default)
    [tsky] never raises: for every pair of readings, finite or not, it
    returns the float [ts - (term1 + 0.0 + t67)]. *)
Theorem tsky_total_without_exponential
  (L : Libm) (ts ta : float) (c : _HasCoeffs)
  (Hlog : log10_sane L) (HK3 : (K3 c =? 0) = true) :
  exists t : float,
    t67 L ta c = Ok t /\
    tsky L ts ta c = Ok (PyFloat (ts - (term1 ta c + 0 + t))).
Proof.
  destruct (t67_never_raises_general L ta c Hlog) as [t Ht].
  exists t. split; [exact Ht |].
  rewrite tsky_of_td.
  rewrite (td_of_terms L ta c _ _ (term2_K3_zero L ta c HK3) Ht).
  reflexivity.
Qed.

Lemma tsky_total_without_exponential_witness :
  log10_sane GuardedLibm.libm /\ (K3 Skytemp =? 0) = true /\
  exists t : float,
    tsky GuardedLibm.libm neg_infinity infinity Skytemp =
      Ok (PyFloat (neg_infinity - (term1 infinity Skytemp + 0 + t))).
Proof.
  split; [exact guarded_log10_sane |].
  split; [reflexivity |].
  destruct (tsky_total_without_exponential GuardedLibm.libm
              neg_infinity infinity Skytemp guarded_log10_sane eq_refl)
    as [t [_ H]].
  exists t. exact H.
Defined.

(** X6: at the centre of the model the correction is the identity.  When
    [ta == K2/10] (a finite value), [K3 == 0] and [K1/100] is finite, the
    drift term is exactly [0.0] and [tsky] returns [ts] itself, whatever
    [ts], [K6] and [K7] are. *)
Theorem tsky_identity_at_centre
  (L : Libm) (ts ta : float) (c : _HasCoeffs)
  (Hcentre : (ta =? K2 c / 10) = true)
  (Hta : is_finite ta = true)
  (HK3 : (K3 c =? 0) = true)
  (HK1 : is_finite (K1 c / 100) = true) :
  _td L ta c = Ok (PyFloat 0) /\ tsky L ts ta c = Ok (PyFloat ts).
Proof.
  destruct (sub_of_equal ta (K2 c / 10) Hcentre Hta) as [Hd1 Hd2].
  assert (Hdelta : delta ta c = 0) by (unfold delta; apply abs_of_zero, Hd2).
  assert (Ht67 : t67 L ta c = Ok (copysign 0 (K6 c))).
  { unfold t67. rewrite Hdelta. reflexivity. }
  assert (Hterm1 : is_a_zero (term1 ta c))
    by (unfold term1; apply mul_finite_zero; assumption).
  assert (Htd : _td L ta c = Ok (PyFloat 0)).
  { rewrite (td_of_terms L ta c _ _ (term2_K3_zero L ta c HK3) Ht67).
    simpl. rewrite (zero_plus_pos_zero _ Hterm1).
    rewrite (pos_zero_plus_zero _ (copysign_zero_is_zero (K6 c))).
    reflexivity. }
  split; [exact Htd |].
  rewrite tsky_of_td, Htd. simpl. rewrite sub_zero_r. reflexivity.
Qed.

Lemma tsky_identity_at_centre_witness :
  (12.5 =? K2 coeffs_centre_12_5 / 10) = true /\
  tsky SampleLibm.libm (-21.75) 12.5 coeffs_centre_12_5 =
    Ok (PyFloat (-21.75)).
Proof.
  split; [reflexivity |].
  apply (tsky_identity_at_centre SampleLibm.libm (-21.75) 12.5
           coeffs_centre_12_5); reflexivity.
Defined.

(** X7: the overflow handler does not cover the product with [K3/100].
    When the second term is plus infinity (the power is finite but its
    product with [K3/100] is not) and the other summands and [ts] are
    finite, [tsky] returns minus infinity, which the classifier maps to
    CLEAR for every finite [clear_limit]. *)
Theorem infinite_term2_reads_CLEAR
  (L : Libm) (ts ta : float) (c : _HasCoeffs) (t : float)
  (clear_limit cloudy_limit : float)
  (H2 : term2 L ta c = Ok (PyFloat infinity))
  (Ht67 : t67 L ta c = Ok t)
  (Hterm1 : is_finite (term1 ta c) = true)
  (Ht : is_finite t = true)
  (Hts : is_finite ts = true)
  (Hlimit : is_finite clear_limit = true) :
  tsky L ts ta c = Ok (PyFloat neg_infinity) /\
  classify_cloud_state neg_infinity clear_limit cloudy_limit = CLEAR.
Proof.
  split.
  - rewrite tsky_of_td, (td_of_terms L ta c _ _ H2 Ht67). simpl.
    rewrite (add_infinity_r _ Hterm1), (add_infinity_l _ Ht),
      (sub_infinity_r _ Hts).
    reflexivity.
  - apply classify_CLEAR_iff. apply neg_infinity_below. exact Hlimit.
Qed.

Lemma infinite_term2_reads_CLEAR_witness :
  math_exp SampleLibm.libm (K4 coeffs_product_overflow / 1000 * 10) =
    Ok (SampleLibm.exp 700) /\
  is_finite (SampleLibm.exp 700) = true /\
  term2 SampleLibm.libm 10 coeffs_product_overflow = Ok (PyFloat infinity) /\
  tsky SampleLibm.libm (-30) 10 coeffs_product_overflow =
    Ok (PyFloat neg_infinity) /\
  classify_cloud_state_default neg_infinity = CLEAR.
Proof.
  split; [vm_compute; reflexivity |].
  split; [vm_compute; reflexivity |].
  split; [vm_compute; reflexivity |].
  apply (infinite_term2_reads_CLEAR SampleLibm.libm (-30) 10
           coeffs_product_overflow (14 * 1 * (1 + 40 / 100))
           default_clear_limit default_cloudy_limit);
    vm_compute; reflexivity.
Defined.

(* ===================================================================== *)
(** * Further properties of the classifier *)
(* ===================================================================== *)

(** X8: with the boundaries the wrong way round
    ([cloudy_limit < clear_limit]) the middle band is empty and
    [cloudy_limit] plays no role: every number below [clear_limit] is
    CLEAR and every other number is VERY_CLOUDY; only a NaN is still
    classified CLOUDY. *)
Theorem inverted_limits_single_threshold
  (t clear_limit cloudy_limit : float)
  (Hinv : (cloudy_limit <? clear_limit) = true)
  (Ht : is_nan t = false) :
  classify_cloud_state t clear_limit cloudy_limit <> CLOUDY /\
  ((t <? clear_limit) = true ->
   classify_cloud_state t clear_limit cloudy_limit = CLEAR) /\
  ((t <? clear_limit) = false ->
   classify_cloud_state t clear_limit cloudy_limit = VERY_CLOUDY).
Proof.
  assert (Hvc : (t <? clear_limit) = false ->
                classify_cloud_state t clear_limit cloudy_limit = VERY_CLOUDY).
  { intros Hlt. apply classify_VERY_CLOUDY_iff. split; [exact Hlt |].
    unfold gtb.
    apply (ltb_leb_trans cloudy_limit clear_limit t Hinv).
    apply ltb_false_leb; [exact Ht | | exact Hlt].
    apply (ltb_not_nan_r cloudy_limit clear_limit Hinv). }
  split; [| split; [apply classify_CLEAR_iff | exact Hvc]].
  destruct (t <? clear_limit) eqn:Hlt.
  - rewrite (proj2 (classify_CLEAR_iff clear_limit cloudy_limit t) Hlt).
    discriminate.
  - rewrite (Hvc eq_refl). discriminate.
Qed.

Lemma inverted_limits_single_threshold_witness :
  (default_clear_limit <? default_cloudy_limit) = true /\
  classify_cloud_state (-12.5) default_cloudy_limit default_clear_limit =
    CLEAR /\
  classify_cloud_state (-8) default_cloudy_limit default_clear_limit =
    VERY_CLOUDY.
Proof.
  split; [reflexivity |].
  split.
  - apply (inverted_limits_single_threshold (-12.5)
             default_cloudy_limit default_clear_limit); reflexivity.
  - apply (inverted_limits_single_threshold (-8)
             default_cloudy_limit default_clear_limit); reflexivity.
Defined.

(** X9: infinite corrected temperatures fall in the outer bands: for a
    finite [clear_limit], minus infinity is CLEAR; for a finite
    [cloudy_limit], plus infinity is VERY_CLOUDY, whatever [clear_limit]
    is. *)
Theorem classify_infinities
  (clear_limit cloudy_limit : float) :
  (is_finite clear_limit = true ->
   classify_cloud_state neg_infinity clear_limit cloudy_limit = CLEAR) /\
  (is_finite cloudy_limit = true ->
   classify_cloud_state infinity clear_limit cloudy_limit = VERY_CLOUDY).
Proof.
  split; intros H.
  - apply classify_CLEAR_iff. apply neg_infinity_below. exact H.
  - apply classify_VERY_CLOUDY_iff. split.
    + apply infinity_not_below.
    + unfold gtb. apply infinity_above. exact H.
Qed.

Lemma classify_infinities_witness :
  is_finite default_clear_limit = true /\
  is_finite default_cloudy_limit = true /\
  classify_cloud_state_default neg_infinity = CLEAR /\
  classify_cloud_state_default infinity = VERY_CLOUDY.
Proof.
  split; [reflexivity |].
  split; [reflexivity |].
  destruct (classify_infinities default_clear_limit default_cloudy_limit)
    as [H1 H2].
  split; [apply H1 | apply H2]; reflexivity.
Defined.
